(** * Webhook proxies of the Dev-center site: a shallow embedding

    The repository holds two Netlify functions, the connection notifier
    (environment variable WEBHOOK_CONNEXIONS) and the review notifier
    (WEBHOOK_AVIS).  Each is an [exports.handler] guarded by an origin
    check, a method check and an in-memory fixed-window rate limiter, which
    sanitises the JSON body and forwards it with one outbound POST.

    The handlers are embedded as pure functions over
    - the JavaScript values that [JSON.parse] can produce (plus [undefined]),
    - the rate-limit table (a [Map] keyed by IP) passed in and out,
    - a record of what the runtime supplies (clock, environment, [fetch]),
    and they return the new table, the log of outbound calls and either the
    response object or the fact that an uncaught [TypeError] was raised. *)

From Stdlib Require Import ZArith NArith Ascii String List Bool Lia.
From stdpp Require Import base option list gmap pretty.
Import ListNotations.
Local Open Scope Z_scope.
Set Warnings "-register-all".

(** ** JavaScript strings

    A JavaScript string is a sequence of UTF-16 code units; [length] and
    [slice] count code units. *)

Abbreviation jsstring := (list N).

(** An ASCII literal of the source, as code units. *)
Definition js (s : string) : jsstring :=
  map N_of_ascii (list_ascii_of_string s).

Fixpoint str_eqb (a b : jsstring) : bool :=
  match a, b with
  | [], [] => true
  | x :: a', y :: b' => N.eqb x y && str_eqb a' b'
  | _, _ => false
  end.

(** [s.slice(0, n)] for a non-negative literal [n], on a string or an
    array. *)
Definition slice0 {A : Type} (n : Z) (s : list A) : list A :=
  take (Z.to_nat n) s.

(** [WhiteSpace] and [LineTerminator] code units of ECMAScript, the ones
    [String.prototype.trim] and [parseInt] strip. *)
Definition isWhiteSpace (c : N) : bool :=
  (existsb (N.eqb c)
     [9; 10; 11; 12; 13; 32; 160; 5760; 8232; 8233; 8239; 8287; 12288; 65279]
   || ((8192 <=? c) && (c <=? 8202)))%N.

Fixpoint trimStart (s : jsstring) : jsstring :=
  match s with
  | c :: s' => if isWhiteSpace c then trimStart s' else s
  | [] => []
  end.

Definition trimEnd (s : jsstring) : jsstring := rev (trimStart (rev s)).

Definition trim (s : jsstring) : jsstring := trimEnd (trimStart s).

(** [c.repeat(n)] for a one-unit string [c]. *)
Definition repeat_str (s : jsstring) (n : nat) : jsstring :=
  concat (replicate n s).

(** [s.split(',')[0]]: the part of [s] before its first comma. *)
Fixpoint split_comma_first (s : jsstring) : jsstring :=
  match s with
  | [] => []
  | c :: s' => if N.eqb c 44 then [] else c :: split_comma_first s'
  end.

(** [/^\d{15,20}$/.test(s)]: no flags, so [\d] is an ASCII digit and the
    anchors are the two ends of the input. *)
Definition isDigit (c : N) : bool := ((48 <=? c) && (c <=? 57))%N.

Definition test_digits_15_20 (s : jsstring) : bool :=
  forallb isDigit s && (15 <=? length s)%nat && (length s <=? 20)%nat.

(** ** JavaScript values

    What [JSON.parse] returns, and [undefined], which property reads
    produce.  A number is modelled on the integers, printed in decimal by
    [ToString] (exact for the safe integers of the runtime).  An object is
    the list of its own properties; [JSON.parse] keeps one binding per key
    and creates [__proto__] as an own property, so the prototype of every
    object is [Object.prototype] and that of every array [Array.prototype]. *)

Inductive value :=
  | VUndefined
  | VNull
  | VBool (b : bool)
  | VNumber (n : Z)
  | VString (s : jsstring)
  | VArray (xs : list value)
  | VObject (props : list (jsstring * value)).

Fixpoint assoc (k : jsstring) (props : list (jsstring * value)) : option value :=
  match props with
  | [] => None
  | (k', v) :: props' => if str_eqb k k' then Some v else assoc k props'
  end.

(** [ToBoolean]. *)
Definition ToBoolean (v : value) : bool :=
  match v with
  | VUndefined | VNull => false
  | VBool b => b
  | VNumber n => negb (n =? 0)
  | VString s => match s with [] => false | _ => true end
  | VArray _ | VObject _ => true
  end.

(** [a || b]. *)
Definition or_else (a b : value) : value := if ToBoolean a then a else b.

(** [v.k] (or [v[k]]) for the property names the handlers read: embeds,
    title, description, color, thumbnail, url, fields, name, value, inline,
    timestamp, username, userId, rating, comment, avatarUrl.  None of them
    is an index, [length] or a member of a built-in prototype, so the read
    yields an own property of an object and [undefined] on anything else,
    except that reading from [null] or [undefined] raises a TypeError
    ([None]). *)
Definition Get (v : value) (k : jsstring) : option value :=
  match v with
  | VUndefined | VNull => None
  | VObject props => Some (default VUndefined (assoc k props))
  | _ => Some VUndefined
  end.

(** [v?.k]. *)
Definition GetOpt (v : value) (k : jsstring) : value :=
  match v with
  | VUndefined | VNull => VUndefined
  | _ => default VUndefined (Get v k)
  end.

Definition isArray (v : value) : bool :=
  match v with VArray _ => true | _ => false end.

Definition typeof_number (v : value) : bool :=
  match v with VNumber _ => true | _ => false end.

Definition is_undefined (v : value) : bool :=
  match v with VUndefined => true | _ => false end.

Definition join_comma (parts : list jsstring) : jsstring :=
  match parts with
  | [] => []
  | p :: ps => p ++ concat (map (fun q => 44%N :: q) ps)
  end.

(** [String(v)], that is [ToString]; [None] when it raises a TypeError.
    An array is converted by [Array.prototype.join]: elements joined with
    commas, [null] and [undefined] as the empty string.  An object without
    an own [toString] is converted by [Object.prototype.toString]; with an
    own [toString] (never callable in parsed JSON) [OrdinaryToPrimitive]
    falls back on [valueOf], which is not callable either or returns the
    object itself, and a TypeError is raised. *)
Fixpoint ToString (v : value) : option jsstring :=
  match v with
  | VUndefined => Some (js "undefined")
  | VNull => Some (js "null")
  | VBool true => Some (js "true")
  | VBool false => Some (js "false")
  | VNumber n => Some (js (pretty n))
  | VString s => Some s
  | VArray xs =>
      join_comma <$>
        mapM (fun x => match x with
                       | VUndefined | VNull => Some []
                       | _ => ToString x
                       end) xs
  | VObject props =>
      match assoc (js "toString") props with
      | Some _ => None
      | None => Some (js "[object Object]")
      end
  end.

(** The result of [parseInt]. *)
Inductive number := NaN | Int (n : Z).

Definition digit_value (radix : Z) (c : N) : option Z :=
  let c := Z.of_N c in
  let d := if (48 <=? c) && (c <=? 57) then Some (c - 48)
           else if (97 <=? c) && (c <=? 122) then Some (c - 87)
           else if (65 <=? c) && (c <=? 90) then Some (c - 55)
           else None in
  match d with
  | Some d => if d <? radix then Some d else None
  | None => None
  end.

(** The value of the longest prefix of [s] made of digits of the radix,
    [acc] being the value read so far ([None]: no digit yet). *)
Fixpoint parse_digits (radix : Z) (s : jsstring) (acc : option Z) : option Z :=
  match s with
  | [] => acc
  | c :: s' =>
      match digit_value radix c with
      | Some d => parse_digits radix s' (Some (radix * default 0 acc + d))
      | None => acc
      end
  end.

(** [parseInt(string)] on a string, without radix: leading white space is
    skipped, then an optional sign, then an optional [0x]/[0X] prefix
    selecting radix 16, then the longest run of digits; [NaN] when that run
    is empty.  The mathematical value of the run is kept exact (the runtime
    rounds it to the nearest double, which no comparison with 1 and 5 can
    observe). *)
Definition parseInt_string (s : jsstring) : number :=
  let s := trimStart s in
  let '(sign, s) := match s with
                    | 45%N :: r => (-1, r)
                    | 43%N :: r => (1, r)
                    | _ => (1, s)
                    end in
  let '(radix, s) := match s with
                     | 48%N :: 120%N :: r => (16, r)
                     | 48%N :: 88%N :: r => (16, r)
                     | _ => (10, s)
                     end in
  match parse_digits radix s None with
  | None => NaN
  | Some n => Int (sign * n)
  end.

(** [parseInt(v)]: [ToString] first, which may raise. *)
Definition parseInt (v : value) : option number :=
  parseInt_string <$> ToString v.

Definition isNaN (x : number) : bool :=
  match x with NaN => true | Int _ => false end.

(** [x < k] and [x > k] on numbers: false when [x] is [NaN]. *)
Definition num_lt (x : number) (k : Z) : bool :=
  match x with NaN => false | Int n => n <? k end.

Definition num_gt (x : number) (k : Z) : bool :=
  match x with NaN => false | Int n => n >? k end.

(** [JSON.stringify(v)], as the JSON tree its text denotes: a property whose
    value is [undefined] is left out of an object, and [undefined] inside an
    array is written [null]. *)
Fixpoint JSON_stringify (v : value) : value :=
  match v with
  | VArray xs =>
      VArray (map (fun x => if is_undefined x then VNull else JSON_stringify x) xs)
  | VObject props =>
      VObject ((fix members (ps : list (jsstring * value)) :=
                  match ps with
                  | [] => []
                  | (k, x) :: ps' =>
                      if is_undefined x then members ps'
                      else (k, JSON_stringify x) :: members ps'
                  end) props)
  | _ => v
  end.

(** ** Requests, responses and the runtime *)

(** The event Netlify passes to a handler.  [body_json] is the completion of
    [JSON.parse(event.body)]: the parsed value, or [None] when it raises a
    SyntaxError. *)
Record Event := {
  headers : gmap jsstring jsstring;
  httpMethod : jsstring;
  body_json : option value
}.

(** A response body: a literal text, or [JSON.stringify] of a value. *)
Inductive Body :=
  | Text (s : jsstring)
  | Json (v : value).

Record Response := {
  statusCode : Z;
  body : Body;
  response_headers : list (jsstring * jsstring)
}.

(** How an invocation ends: the handler returns a response, or an uncaught
    TypeError rejects its promise. *)
Inductive Completion :=
  | Returned (r : Response)
  | Thrown.

(** One call of [fetch(url, { method, headers, body })]. *)
Record FetchCall := {
  fetch_url : jsstring;
  fetch_method : jsstring;
  fetch_headers : list (jsstring * jsstring);
  fetch_body : value
}.

(** What awaiting [fetch] gives: a response with its [ok] flag, or an
    exception (network failure, invalid URL, ...). *)
Inductive FetchResult :=
  | Resolved (ok : bool)
  | Rejected.

(** What the runtime supplies to one invocation: the reading of
    [Date.now()], the string [new Date().toISOString()] gives at its i-th
    evaluation, the environment variable holding the webhook URL, and the
    behaviour of [fetch]. *)
Record World := {
  now : Z;
  toISOString : nat -> jsstring;
  env_webhook : option jsstring;
  fetch : FetchCall -> FetchResult
}.

(** An entry of the rate-limit table. *)
Record Entry := { count : Z; start : Z }.

(** The result of an invocation. *)
Record Outcome := {
  table : gmap jsstring Entry;
  fetched : list FetchCall;
  completion : Completion
}.

Definition respond (t : gmap jsstring Entry) (status : Z) (b : Body)
    (h : list (jsstring * jsstring)) : Outcome :=
  {| table := t; fetched := [];
     completion := Returned {| statusCode := status; body := b;
                               response_headers := h |} |}.

Definition raise (t : gmap jsstring Entry) : Outcome :=
  {| table := t; fetched := []; completion := Thrown |}.

(** [event.headers['x-forwarded-for']?.split(',')[0] || 'unknown'] *)
Definition client_ip (event : Event) : jsstring :=
  match headers event !! js "x-forwarded-for" with
  | None => js "unknown"
  | Some h => match split_comma_first h with
              | [] => js "unknown"
              | ip => ip
              end
  end.

Definition json_headers : list (jsstring * jsstring) :=
  [(js "Content-Type", js "application/json")].

(** [!webhookUrl] *)
Definition url_missing (u : option jsstring) : bool :=
  match u with
  | None | Some [] => true
  | Some _ => false
  end.

(** ** The connection notifier *)

Module Connexion.

Definition ALLOWED_ORIGIN : jsstring := js "https://devcenter.vyral-studio.fr".

Definition RATE_LIMIT_WINDOW_MS : Z := 60 * 1000.
Definition RATE_LIMIT_MAX : Z := 5.

Definition isRateLimited (now : Z) (ip : jsstring)
    (rateLimitMap : gmap jsstring Entry) : bool * gmap jsstring Entry :=
  let entry := default {| count := 0; start := now |} (rateLimitMap !! ip) in
  if now - start entry >? RATE_LIMIT_WINDOW_MS then
    (false, <[ip := {| count := 1; start := now |}]> rateLimitMap)
  else if count entry >=? RATE_LIMIT_MAX then (true, rateLimitMap)
  else
    (false,
     <[ip := {| count := count entry + 1; start := start entry |}]> rateLimitMap).

(** The body of [embed.fields.slice(0, 25).map(f => ...)]. *)
Definition safeField (f : value) : option value :=
  name ← Get f (js "name");
  name ← ToString (or_else name (VString []));
  val ← Get f (js "value");
  val ← ToString (or_else val (VString []));
  inline ← Get f (js "inline");
  Some (VObject [(js "name", VString (slice0 256 name));
                 (js "value", VString (slice0 1024 val));
                 (js "inline", VBool (ToBoolean inline))]).

(** The body of [payload.embeds.map(embed => ...)]; [stamp] is the value of
    [new Date().toISOString()] for this embed. *)
Definition safeEmbed (stamp : jsstring) (embed : value) : option value :=
  title ← Get embed (js "title");
  title ← ToString (or_else title (VString []));
  description ← Get embed (js "description");
  description ← ToString (or_else description (VString []));
  color ← Get embed (js "color");
  thumbnail ← Get embed (js "thumbnail");
  thumbnail ←
    (if ToBoolean (GetOpt thumbnail (js "url")) then
       url ← Get thumbnail (js "url");
       url ← ToString url;
       Some (VObject [(js "url", VString (slice0 512 url))])
     else Some VUndefined);
  fields ← Get embed (js "fields");
  fields ←
    match fields with
    | VArray fs => VArray <$> mapM safeField (slice0 25 fs)
    | _ => Some (VArray [])
    end;
  Some (VObject [(js "title", VString (slice0 256 title));
                 (js "description", VString (slice0 4096 description));
                 (js "color", if typeof_number color then color else VNumber 0);
                 (js "thumbnail", thumbnail);
                 (js "fields", fields);
                 (js "timestamp", VString stamp)]).

Definition safePayload (w : World) (embeds : list value) : option value :=
  safe ← mapM id (imap (fun i embed => safeEmbed (toISOString w i) embed) embeds);
  Some (VObject [(js "embeds", VArray safe)]).

Definition handler (w : World) (event : Event)
    (rateLimitMap : gmap jsstring Entry) : Outcome :=
  let origin := default [] (headers event !! js "origin") in
  if negb (str_eqb origin ALLOWED_ORIGIN) then
    respond rateLimitMap 403 (Text (js "Forbidden")) []
  else if negb (str_eqb (httpMethod event) (js "POST")) then
    respond rateLimitMap 405 (Text (js "Method Not Allowed")) []
  else
    let ip := client_ip event in
    let '(limited, rateLimitMap) := isRateLimited (now w) ip rateLimitMap in
    if limited then
      respond rateLimitMap 429
        (Json (VObject [(js "error", VString (js "Too many requests"))]))
        json_headers
    else
      match body_json event with
      | None => respond rateLimitMap 400 (Text (js "Invalid JSON")) []
      | Some payload =>
          match Get payload (js "embeds") with
          | None => raise rateLimitMap
          | Some embeds =>
              if negb (ToBoolean embeds) || negb (isArray embeds) then
                respond rateLimitMap 400 (Text (js "Invalid payload structure")) []
              else
                match safePayload w (match embeds with VArray es => es | _ => [] end) with
                | None => raise rateLimitMap
                | Some safePayload =>
                    let webhookUrl := env_webhook w in
                    if url_missing webhookUrl then
                      respond rateLimitMap 500 (Text (js "Webhook not configured")) []
                    else
                      let call := {| fetch_url := default [] webhookUrl;
                                     fetch_method := js "POST";
                                     fetch_headers := json_headers;
                                     fetch_body := JSON_stringify safePayload |} in
                      {| table := rateLimitMap;
                         fetched := [call];
                         completion :=
                           Returned
                             match fetch w call with
                             | Resolved false =>
                                 {| statusCode := 502;
                                    body := Text (js "Discord webhook failed");
                                    response_headers := [] |}
                             | Resolved true =>
                                 {| statusCode := 200;
                                    body := Json (VObject [(js "success", VBool true)]);
                                    response_headers :=
                                      [(js "Content-Type", js "application/json");
                                       (js "Access-Control-Allow-Origin", ALLOWED_ORIGIN)] |}
                             | Rejected =>
                                 {| statusCode := 502;
                                    body := Text (js "Network error");
                                    response_headers := [] |}
                             end |}
                end
          end
      end.

End Connexion.

(** ** The review notifier *)

Module Avis.

Definition ALLOWED_ORIGIN : jsstring := js "https://devcenter.vyral-studio.fr".

Definition RATE_LIMIT_WINDOW_MS : Z := 5 * 60 * 1000.
Definition RATE_LIMIT_MAX : Z := 2.

Definition isRateLimited (now : Z) (ip : jsstring)
    (rateLimitMap : gmap jsstring Entry) : bool * gmap jsstring Entry :=
  let entry := default {| count := 0; start := now |} (rateLimitMap !! ip) in
  if now - start entry >? RATE_LIMIT_WINDOW_MS then
    (false, <[ip := {| count := 1; start := now |}]> rateLimitMap)
  else if count entry >=? RATE_LIMIT_MAX then (true, rateLimitMap)
  else
    (false,
     <[ip := {| count := count entry + 1; start := start entry |}]> rateLimitMap).

(** The star glyph U+2B50, one code unit. *)
Definition STAR : jsstring := [11088%N].

(** The 429 message, with its accented letter U+00E9. *)
Definition TOO_MANY : jsstring :=
  js "Trop d'avis envoy" ++ [233%N] ++ js "s. Attendez quelques minutes.".

(** The banner: the star, then the text with its cedilla U+00E7. *)
Definition CONTENT : jsstring :=
  STAR ++ js " **Nouvel avis re" ++ [231%N] ++ js "u !**".

(** The title: the speech balloon U+1F4AC (a surrogate pair), then the text. *)
Definition TITLE : jsstring := [55357%N; 56492%N] ++ js " Avis Client".

(** The object literal bound to [safePayload]; [repeat] receives the
    validated rating, an integer from 1 to 5. *)
Definition safePayload (stamp : jsstring) (username userId avatarUrl : value)
    (safeRating : Z) (safeComment : jsstring) : option value :=
  thumbnail ←
    (if ToBoolean avatarUrl then
       url ← ToString avatarUrl;
       Some (VObject [(js "url", VString (slice0 512 url))])
     else Some VUndefined);
  username ← ToString username;
  userId ← ToString userId;
  Some (VObject
    [(js "content", VString CONTENT);
     (js "embeds", VArray [VObject
        [(js "title", VString TITLE);
         (js "color", VNumber 16777215);
         (js "thumbnail", thumbnail);
         (js "fields", VArray
            [VObject [(js "name", VString (js "Utilisateur"));
                      (js "value", VString (slice0 100 username));
                      (js "inline", VBool true)];
             VObject [(js "name", VString (js "ID"));
                      (js "value", VString (slice0 20 userId));
                      (js "inline", VBool true)];
             VObject [(js "name", VString (js "Note"));
                      (js "value", VString (repeat_str STAR (Z.to_nat safeRating)));
                      (js "inline", VBool false)];
             VObject [(js "name", VString (js "Commentaire"));
                      (js "value", VString safeComment);
                      (js "inline", VBool false)]]);
         (js "timestamp", VString stamp)]])]).

Definition handler (w : World) (event : Event)
    (rateLimitMap : gmap jsstring Entry) : Outcome :=
  let origin := default [] (headers event !! js "origin") in
  if negb (str_eqb origin ALLOWED_ORIGIN) then
    respond rateLimitMap 403 (Text (js "Forbidden")) []
  else if negb (str_eqb (httpMethod event) (js "POST")) then
    respond rateLimitMap 405 (Text (js "Method Not Allowed")) []
  else
    let ip := client_ip event in
    let '(limited, rateLimitMap) := isRateLimited (now w) ip rateLimitMap in
    if limited then
      respond rateLimitMap 429 (Json (VObject [(js "error", VString TOO_MANY)]))
        json_headers
    else
      match body_json event with
      | None => respond rateLimitMap 400 (Text (js "Invalid JSON")) []
      | Some payload =>
          (* const { username, userId, rating, comment, avatarUrl } = payload *)
          match Get payload (js "username"), Get payload (js "userId"),
                Get payload (js "rating"), Get payload (js "comment"),
                Get payload (js "avatarUrl") with
          | Some username, Some userId, Some rating, Some comment, Some avatarUrl =>
              if negb (ToBoolean username) || negb (ToBoolean userId)
                 || negb (ToBoolean rating) || negb (ToBoolean comment) then
                respond rateLimitMap 400 (Text (js "Missing fields")) []
              else
                match parseInt rating with
                | None => raise rateLimitMap
                | Some safeRating =>
                    if isNaN safeRating || num_lt safeRating 1 || num_gt safeRating 5 then
                      respond rateLimitMap 400 (Text (js "Invalid rating")) []
                    else
                      match ToString comment with
                      | None => raise rateLimitMap
                      | Some comment_s =>
                          let safeComment := slice0 500 comment_s in
                          if (length (trim safeComment) <? 5)%nat then
                            respond rateLimitMap 400 (Text (js "Comment too short")) []
                          else
                            match ToString userId with
                            | None => raise rateLimitMap
                            | Some userId_s =>
                                if negb (test_digits_15_20 userId_s) then
                                  respond rateLimitMap 400 (Text (js "Invalid user ID")) []
                                else
                                  let webhookUrl := env_webhook w in
                                  if url_missing webhookUrl then
                                    respond rateLimitMap 500
                                      (Text (js "Webhook not configured")) []
                                  else
                                    match safePayload (toISOString w 0) username userId
                                            avatarUrl
                                            (match safeRating with Int n => n | NaN => 0 end)
                                            safeComment with
                                    | None => raise rateLimitMap
                                    | Some safePayload =>
                                        let call :=
                                          {| fetch_url := default [] webhookUrl;
                                             fetch_method := js "POST";
                                             fetch_headers := json_headers;
                                             fetch_body := JSON_stringify safePayload |} in
                                        {| table := rateLimitMap;
                                           fetched := [call];
                                           completion :=
                                             Returned
                                               match fetch w call with
                                               | Resolved false =>
                                                   {| statusCode := 502;
                                                      body := Text (js "Discord webhook failed");
                                                      response_headers := [] |}
                                               | Resolved true =>
                                                   {| statusCode := 200;
                                                      body := Json (VObject [(js "success", VBool true)]);
                                                      response_headers :=
                                                        [(js "Content-Type", js "application/json");
                                                         (js "Access-Control-Allow-Origin", ALLOWED_ORIGIN)] |}
                                               | Rejected =>
                                                   {| statusCode := 502;
                                                      body := Text (js "Network error");
                                                      response_headers := [] |}
                                               end |}
                                    end
                            end
                      end
                end
          | _, _, _, _, _ => raise rateLimitMap
          end
      end.

End Avis.

(** ** Drivers used to state the properties *)

(** The admission check both handlers carry, with its two constants taken
    as arguments; each [isRateLimited] is this function at its constants. *)
Definition fixedWindow (WINDOW MAX : Z) (now : Z) (ip : jsstring)
    (rateLimitMap : gmap jsstring Entry) : bool * gmap jsstring Entry :=
  let entry := default {| count := 0; start := now |} (rateLimitMap !! ip) in
  if now - start entry >? WINDOW then
    (false, <[ip := {| count := 1; start := now |}]> rateLimitMap)
  else if count entry >=? MAX then (true, rateLimitMap)
  else
    (false,
     <[ip := {| count := count entry + 1; start := start entry |}]> rateLimitMap).

(** Successive admission checks of one IP at the given times, oldest first:
    the verdicts ([true] is a denial) and the table left behind. *)
Fixpoint checks (check : Z -> jsstring -> gmap jsstring Entry -> bool * gmap jsstring Entry)
    (ip : jsstring) (times : list Z) (m : gmap jsstring Entry)
    : list bool * gmap jsstring Entry :=
  match times with
  | [] => ([], m)
  | t :: times' =>
      let '(limited, m1) := check t ip m in
      let '(verdicts, m2) := checks check ip times' m1 in
      (limited :: verdicts, m2)
  end.

(** The entry of [ip] is missing, or its window is over at time [t]. *)
Definition absent_or_expired (WINDOW : Z) (m : gmap jsstring Entry)
    (ip : jsstring) (t : Z) : Prop :=
  m !! ip = None \/ exists e, m !! ip = Some e /\ t - start e > WINDOW.

(** The admission contract of a rate limiter with the given window length
    and maximal count. *)
Record admission_contract (WINDOW MAX : Z)
    (check : Z -> jsstring -> gmap jsstring Entry -> bool * gmap jsstring Entry)
    : Prop := {
  (* a check admits iff the entry is absent or expired, or its count is
     below the maximum *)
  admits_iff : forall t ip m,
    (check t ip m).1 = false <->
    (absent_or_expired WINDOW m ip t
     \/ exists e, m !! ip = Some e /\ count e < MAX);
  (* absent or expired: the entry is reset to count 1, windowStart = now *)
  resets : forall t ip m,
    absent_or_expired WINDOW m ip t ->
    check t ip m = (false, <[ip := {| count := 1; start := t |}]> m);
  (* within the window and below the maximum: the count is incremented *)
  increments : forall t ip m e,
    m !! ip = Some e -> t - start e <= WINDOW -> count e < MAX ->
    check t ip m =
      (false, <[ip := {| count := count e + 1; start := start e |}]> m);
  (* the N-th request of a window (the one opening it is the first) is
     admitted iff N <= MAX; [i] is N - 1 *)
  nth_of_window : forall t0 ip m times (i : nat) limited,
    absent_or_expired WINDOW m ip t0 ->
    Forall (fun t => t - t0 <= WINDOW) times ->
    (checks check ip (t0 :: times) m).1 !! i = Some limited ->
    (limited = false <-> Z.of_nat i + 1 <= MAX);
  (* a request exactly at windowStart + WINDOW belongs to the old window *)
  boundary_in_old_window : forall ip m e,
    m !! ip = Some e ->
    check (start e + WINDOW) ip m =
      if count e >=? MAX then (true, m)
      else (false, <[ip := {| count := count e + 1; start := start e |}]> m);
  (* the entries of the other IPs are left alone *)
  other_ips_untouched : forall t ip ip' m,
    ip <> ip' -> (check t ip m).2 !! ip' = m !! ip'
}.

(** [event.headers['origin'] || ''] *)
Definition request_origin (event : Event) : jsstring :=
  default [] (headers event !! js "origin").

(** The response object [{ statusCode, body }] of a rejection. *)
Definition plain (status : Z) (text : string) : Response :=
  {| statusCode := status; body := Text (js text); response_headers := [] |}.

(** The request passed the origin, method and rate-limit checks of a
    handler, the admission check leaving the table [m']. *)
Definition admitted (allowed : jsstring)
    (check : Z -> jsstring -> gmap jsstring Entry -> bool * gmap jsstring Entry)
    (w : World) (event : Event) (m m' : gmap jsstring Entry) : Prop :=
  request_origin event = allowed
  /\ httpMethod event = js "POST"
  /\ check (now w) (client_ip event) m = (false, m').

Abbreviation Connexion_admitted :=
  (admitted Connexion.ALLOWED_ORIGIN Connexion.isRateLimited).

Abbreviation Avis_admitted :=
  (admitted Avis.ALLOWED_ORIGIN Avis.isRateLimited).

(** The single outbound call of a handler: a POST of the serialised
    payload, with a JSON content type, to the configured URL. *)
Definition post_to (url : jsstring) (safePayload : value) : FetchCall :=
  {| fetch_url := url;
     fetch_method := js "POST";
     fetch_headers := [(js "Content-Type", js "application/json")];
     fetch_body := JSON_stringify safePayload |}.

(** The response to the client after the outbound call. *)
Definition success_response : Response :=
  {| statusCode := 200;
     body := Json (VObject [(js "success", VBool true)]);
     response_headers :=
       [(js "Content-Type", js "application/json");
        (js "Access-Control-Allow-Origin", js "https://devcenter.vyral-studio.fr")] |}.

(** The member [k] of a JSON object: [None] when the object has no such
    key (or the value is no object). *)
Definition member (k : string) (v : value) : option value :=
  match v with
  | VObject props => assoc (js k) props
  | _ => None
  end.



(** [null] and [undefined], from which no property can be read. *)
Definition nullish (v : value) : bool :=
  match v with VUndefined | VNull => true | _ => false end.

(** The four required members of a review are present and truthy. *)
Definition required_fields (payload : value) : bool :=
  ToBoolean (GetOpt payload (js "username"))
  && ToBoolean (GetOpt payload (js "userId"))
  && ToBoolean (GetOpt payload (js "rating"))
  && ToBoolean (GetOpt payload (js "comment")).

(** [!(isNaN(x) || x < 1 || x > 5)] *)
Definition rating_in_range (x : number) : bool :=
  negb (isNaN x || num_lt x 1 || num_gt x 5).

(** A review that passes every validation of the review handler: [n] is
    the parsed rating, [safeComment] the comment cut to 500 units and
    [userId_s] the user id as a string. *)
Definition Avis_validated (payload : value) (n : Z)
    (safeComment userId_s : jsstring) : Prop :=
  required_fields payload = true
  /\ parseInt (GetOpt payload (js "rating")) = Some (Int n)
  /\ 1 <= n <= 5
  /\ (exists c, ToString (GetOpt payload (js "comment")) = Some c
                /\ safeComment = slice0 500 c)
  /\ (5 <= length (trim safeComment))%nat
  /\ ToString (GetOpt payload (js "userId")) = Some userId_s
  /\ test_digits_15_20 userId_s = true.





(** The same runtime with another value of the webhook variable. *)
Definition with_url (w : World) (url : option jsstring) : World :=
  {| now := now w; toISOString := toISOString w; env_webhook := url;
     fetch := fetch w |}.

(** The response of a handler once its outbound call has been awaited. *)
Definition forward_response (r : FetchResult) : Response :=
  match r with
  | Resolved true => success_response
  | Resolved false => plain 502 "Discord webhook failed"
  | Rejected => plain 502 "Network error"
  end.

(** ** Sample inputs *)

(** A runtime with the given webhook URL and [fetch] behaviour. *)
Definition sample_world (url : option jsstring) (r : FetchResult) : World :=
  {| now := 1700000000000;
     toISOString := fun _ => js "2023-11-14T22:13:20.000Z";
     env_webhook := url;
     fetch := fun _ => r |}.

Definition sample_url : jsstring := js "https://discord.com/api/webhooks/1/t".

(** A request from the site, through a proxy chain. *)
Definition request (origin method : jsstring) (b : option value) : Event :=
  {| headers := <[js "origin" := origin]>
                  (<[js "x-forwarded-for" := js "203.0.113.7, 10.0.0.1"]> ∅);
     httpMethod := method;
     body_json := b |}.

Definition post (b : option value) : Event :=
  request (js "https://devcenter.vyral-studio.fr") (js "POST") b.

(** A request without origin header. *)
Definition anonymous_request : Event :=
  {| headers := ∅; httpMethod := js "DELETE"; body_json := None |}.

(** A table holding one entry, for the client of [post]. *)
Definition table_with (c t : Z) : gmap jsstring Entry :=
  {[ js "203.0.113.7" := {| count := c; start := t |} ]}.

(** An embed with a description of 10000 units, 30 fields, a timestamp of
    its own and no thumbnail. *)
Definition long_embed : value :=
  VObject [(js "title", VString (js "Connexion"));
           (js "description", VString (replicate (Z.to_nat 10000) 97%N));
           (js "color", VNumber 5763719);
           (js "fields",
            VArray (replicate 30
              (VObject [(js "name", VString (js "IP"));
                        (js "value", VString (js "203.0.113.7"))])));
           (js "timestamp", VString (js "1999-12-31T23:59:59.000Z"))].

(** A well-formed review. *)
Definition review (rating userId comment : value) : value :=
  VObject [(js "username", VString (js "jojo"));
           (js "userId", userId);
           (js "rating", rating);
           (js "comment", comment)].

(** A comment of 600 letters. *)
Definition long_comment : value := VString (replicate 600 97%N).

Definition good_userId : value := VString (js "123456789012345").
Definition good_comment : value := VString (js "Super service !").

(** A connection notice with one embed, and a review that passes. *)
Definition small_notice : value :=
  VObject [(js "embeds", VArray [VObject [(js "title", VString (js "Connexion"))]])].

Definition good_review : value := review (VNumber 4) good_userId good_comment.

(** How the review handler completes on a review, the webhook being
    configured and reachable. *)
Definition review_answer (rating userId comment : value) : Completion :=
  completion (Avis.handler (sample_world (Some sample_url) (Resolved true))
                (post (Some (review rating userId comment))) ∅).

(** ** Further drivers *)

(** Every entry of the table counts between 1 and [MAX] requests. *)
Definition counts_bounded (MAX : Z) (m : gmap jsstring Entry) : Prop :=
  forall ip e, m !! ip = Some e -> 1 <= count e <= MAX.

(** The table after a handler served the given invocations in turn, each
    with its own runtime. *)
Definition serve (handler : World -> Event -> gmap jsstring Entry -> Outcome)
    (invocations : list (World * Event)) (m : gmap jsstring Entry)
    : gmap jsstring Entry :=
  foldl (fun m '(w, event) => table (handler w event m)) m invocations.

(** [client_ip] reads nothing but the forwarded-for header. *)
Definition forwarded_for (event : Event) : option jsstring :=
  headers event !! js "x-forwarded-for".

(** The header [k] of a response. *)
Definition header (k : string) (r : Response) : option jsstring :=
  snd <$> find (fun kv => str_eqb kv.1 (js k)) (response_headers r).

(** How an invocation may settle: either it made no outbound call and
    raised or answered one of the five rejections, without CORS header; or
    it made one POST to the configured URL and answered what that call
    gave. *)
Definition settled (w : World) (o : Outcome) : Prop :=
  (fetched o = []
   /\ (completion o = Thrown
       \/ exists r, completion o = Returned r
                    /\ In (statusCode r) [400; 403; 405; 429; 500]
                    /\ header "Access-Control-Allow-Origin" r = None))
  \/ exists url safe,
       env_webhook w = Some url /\ url <> []
       /\ fetched o = [post_to url safe]
       /\ completion o = Returned (forward_response (fetch w (post_to url safe))).

(** What a caller and the downstream service can rely on. *)
Record disciplined (w : World) (o : Outcome) : Prop := {
  (* at most one outbound call *)
  one_call_at_most : (length (fetched o) <= 1)%nat;
  (* always a POST, with a JSON content type, to the configured URL *)
  call_target : forall call, call ∈ fetched o ->
    env_webhook w = Some (fetch_url call) /\ fetch_url call <> []
    /\ fetch_method call = js "POST"
    /\ fetch_headers call = [(js "Content-Type", js "application/json")];
  (* the statuses a handler can answer *)
  statuses : forall r, completion o = Returned r ->
    In (statusCode r) [200; 400; 403; 405; 429; 500; 502];
  (* 200 exactly when the outbound call was made and reported success *)
  success_iff : forall r, completion o = Returned r ->
    (statusCode r = 200 <->
     exists call, fetched o = [call] /\ fetch w call = Resolved true);
  (* 502 exactly when the outbound call was made and failed or raised *)
  bad_gateway_iff : forall r, completion o = Returned r ->
    (statusCode r = 502 <->
     exists call, fetched o = [call] /\ fetch w call <> Resolved true);
  (* the CORS header is sent with a 200 and with nothing else *)
  cors_iff : forall r, completion o = Returned r ->
    (statusCode r = 200 <->
     header "Access-Control-Allow-Origin" r
       = Some (js "https://devcenter.vyral-studio.fr"));
  (* an invocation that raises made no outbound call *)
  raises_before_call : completion o = Thrown -> fetched o = []
}.



(** [undefined], [null], a boolean, a number or a string. *)
Definition scalar (v : value) : bool :=
  match v with
  | VArray _ | VObject _ => false
  | _ => true
  end.

(** A field the sanitiser can read: not [null], with a scalar (or no) name
    and value. *)
Definition typed_field (f : value) : bool :=
  negb (nullish f)
  && scalar (GetOpt f (js "name")) && scalar (GetOpt f (js "value")).

(** An embed the sanitiser can read: not [null], with a scalar (or no)
    title, description and thumbnail url, and fields that are no array or
    an array of readable fields. *)
Definition typed_embed (e : value) : bool :=
  negb (nullish e)
  && scalar (GetOpt e (js "title")) && scalar (GetOpt e (js "description"))
  && scalar (GetOpt (GetOpt e (js "thumbnail")) (js "url"))
  && match GetOpt e (js "fields") with
     | VArray fs => forallb typed_field fs
     | _ => true
     end.

(** A review whose five members are scalar (or missing). *)
Definition typed_review (payload : value) : bool :=
  negb (nullish payload)
  && scalar (GetOpt payload (js "username"))
  && scalar (GetOpt payload (js "userId"))
  && scalar (GetOpt payload (js "rating"))
  && scalar (GetOpt payload (js "comment"))
  && scalar (GetOpt payload (js "avatarUrl")).

(** A connection notice whose embeds, when it has an array of them, are all
    readable. *)
Definition typed_notice (payload : value) : bool :=
  negb (nullish payload)
  && match GetOpt payload (js "embeds") with
     | VArray embeds => forallb typed_embed embeds
     | _ => true
     end.

(** An embed carrying members the handler does not know, a thumbnail and
    a field with a member of its own. *)
Definition noisy_embed : value :=
  VObject [(js "title", VString (js "Connexion"));
           (js "url", VString (js "https://example.org/phishing"));
           (js "author", VObject [(js "name", VString (js "admin"))]);
           (js "thumbnail", VObject [(js "url", VString (js "https://example.org/a.png"));
                                     (js "width", VNumber 4096)]);
           (js "fields",
            VArray [VObject [(js "name", VString (js "IP"));
                             (js "value", VNumber 42);
                             (js "extra", VBool true)]]);
           (js "footer", VObject [(js "text", VString (js "x"))])].

Definition noisy_notice : value :=
  VObject [(js "content", VString (js "@everyone"));
           (js "username", VString (js "admin"));
           (js "embeds", VArray [noisy_embed; VNumber 7])].

(** * Properties *)

Lemma str_eqb_eq (a b : jsstring) : str_eqb a b = true <-> a = b.
Proof.
  revert b. induction a as [|x a IH]; intros [|y b]; simpl; try (split; congruence).
  rewrite andb_true_iff, N.eqb_eq, IH. split.
  - intros [-> ->]. reflexivity.
  - intros [= -> ->]. auto.
Qed.

Lemma str_eqb_neq (a b : jsstring) : str_eqb a b = false <-> a <> b.
Proof.
  rewrite <- str_eqb_eq. destruct (str_eqb a b); split; congruence.
Qed.

(** ** The rate limiter *)

Lemma Connexion_isRateLimited_fixedWindow :
  Connexion.isRateLimited = fixedWindow 60000 5.
Proof. reflexivity. Qed.

Lemma Avis_isRateLimited_fixedWindow :
  Avis.isRateLimited = fixedWindow 300000 2.
Proof. reflexivity. Qed.

Section FixedWindow.
Variables WINDOW MAX : Z.
Hypothesis WINDOW_nonneg : 0 <= WINDOW.
Hypothesis MAX_pos : 0 < MAX.

Local Abbreviation check := (fixedWindow WINDOW MAX).

Lemma check_absent (t : Z) (ip : jsstring) (m : gmap jsstring Entry) :
  m !! ip = None ->
  check t ip m = (false, <[ip := {| count := 1; start := t |}]> m).
Proof.
  intros Hm. unfold fixedWindow. rewrite Hm. simpl.
  replace (t - t) with 0 by lia.
  destruct (0 >? WINDOW) eqn:E1; [lia|].
  destruct (0 >=? MAX) eqn:E2; [lia|]. reflexivity.
Qed.

Lemma check_expired (t : Z) (ip : jsstring) (m : gmap jsstring Entry) e :
  m !! ip = Some e -> t - start e > WINDOW ->
  check t ip m = (false, <[ip := {| count := 1; start := t |}]> m).
Proof.
  intros Hm Ht. unfold fixedWindow. rewrite Hm. simpl.
  destruct (t - start e >? WINDOW) eqn:E1; [reflexivity|lia].
Qed.

Lemma check_within (t : Z) (ip : jsstring) (m : gmap jsstring Entry) e :
  m !! ip = Some e -> t - start e <= WINDOW ->
  check t ip m =
    if count e >=? MAX then (true, m)
    else (false, <[ip := {| count := count e + 1; start := start e |}]> m).
Proof.
  intros Hm Ht. unfold fixedWindow. rewrite Hm. simpl.
  destruct (t - start e >? WINDOW) eqn:E1; [lia|reflexivity].
Qed.

Lemma check_resets (t : Z) (ip : jsstring) (m : gmap jsstring Entry) :
  absent_or_expired WINDOW m ip t ->
  check t ip m = (false, <[ip := {| count := 1; start := t |}]> m).
Proof.
  intros [Hm|(e & Hm & Ht)]; eauto using check_absent, check_expired.
Qed.

Lemma check_admits_iff (t : Z) (ip : jsstring) (m : gmap jsstring Entry) :
  (check t ip m).1 = false <->
  (absent_or_expired WINDOW m ip t
   \/ exists e, m !! ip = Some e /\ count e < MAX).
Proof.
  unfold absent_or_expired. destruct (m !! ip) as [e|] eqn:Hm.
  - destruct (Z_le_gt_dec (t - start e) WINDOW) as [Hin|Hout].
    + rewrite (check_within _ _ _ _ Hm Hin).
      destruct (count e >=? MAX) eqn:E; simpl; split.
      * discriminate.
      * intros [[?|(e' & He' & ?)]|(e' & He' & ?)]; simplify_eq; lia.
      * intros _. right. exists e. split; [reflexivity|lia].
      * reflexivity.
    + rewrite (check_expired _ _ _ _ Hm Hout). simpl. split; [|reflexivity].
      intros _. left. right. eauto.
  - rewrite (check_absent _ _ _ Hm). simpl. split; [|reflexivity].
    intros _. left. left. reflexivity.
Qed.

(** A denial leaves the table as it was, and happens exactly when the
    entry is inside its window with a count that reached the maximum. *)
Lemma check_denies_iff (t : Z) (ip : jsstring) (m : gmap jsstring Entry) :
  (check t ip m).1 = true <->
  exists e, m !! ip = Some e /\ t - start e <= WINDOW /\ MAX <= count e.
Proof.
  destruct (m !! ip) as [e|] eqn:Hm.
  - destruct (Z_le_gt_dec (t - start e) WINDOW) as [Hin|Hout].
    + rewrite (check_within _ _ _ _ Hm Hin).
      destruct (count e >=? MAX) eqn:E; simpl; split; try discriminate.
      * intros _. exists e. repeat split; [assumption|lia].
      * reflexivity.
      * intros (e' & [= <-] & _ & ?). lia.
    + rewrite (check_expired _ _ _ _ Hm Hout). simpl.
      split; [discriminate|]. intros (e' & [= <-] & ? & _). lia.
  - rewrite (check_absent _ _ _ Hm). simpl.
    split; [discriminate|]. intros (e' & [=] & _).
Qed.

Lemma check_denial_keeps_table (t : Z) (ip : jsstring) (m : gmap jsstring Entry) :
  (check t ip m).1 = true -> (check t ip m).2 = m.
Proof.
  unfold fixedWindow.
  destruct (_ >? _); [discriminate|]. destruct (_ >=? _); [reflexivity|discriminate].
Qed.

(** Inside a window opened at [t0], with [c] requests counted so far, the
    request number [c + i + 1] is admitted iff that number is at most
    [MAX]. *)
Lemma checks_in_window (t0 : Z) (ip : jsstring) (times : list Z) : forall (m : gmap jsstring Entry) c (i : nat) limited,
  m !! ip = Some {| count := c; start := t0 |} ->
  Forall (fun t => t - t0 <= WINDOW) times ->
  (checks check ip times m).1 !! i = Some limited ->
  (limited = false <-> c + Z.of_nat i + 1 <= MAX).
Proof.
  induction times as [|t times IH]; intros m c i limited Hm Hall Hi.
  - destruct i; discriminate.
  - apply Forall_cons in Hall as [Ht Hall]. simpl in Hi.
    rewrite (check_within t ip m _ Hm Ht) in Hi. simpl in Hi.
    destruct (c >=? MAX) eqn:E.
    + destruct (checks check ip times m) as [verdicts m2] eqn:Hrec.
      destruct i as [|i]; simpl in Hi.
      * injection Hi as <-. split; [discriminate|lia].
      * specialize (IH m c i limited Hm Hall). rewrite Hrec in IH.
        specialize (IH Hi). rewrite IH. lia.
    + set (m1 := <[ip := {| count := c + 1; start := t0 |}]> m) in *.
      destruct (checks check ip times m1) as [verdicts m2] eqn:Hrec.
      destruct i as [|i]; simpl in Hi.
      * injection Hi as <-. split; [lia|reflexivity].
      * assert (Hm1 : m1 !! ip = Some {| count := c + 1; start := t0 |})
          by apply lookup_insert_eq.
        specialize (IH m1 (c + 1) i limited Hm1 Hall). rewrite Hrec in IH.
        specialize (IH Hi). rewrite IH. lia.
Qed.

Lemma fixedWindow_contract : admission_contract WINDOW MAX check.
Proof.
  split.
  - apply check_admits_iff.
  - apply check_resets.
  - intros t ip m e Hm Ht Hc. rewrite (check_within _ _ _ _ Hm Ht).
    destruct (count e >=? MAX) eqn:E; [lia|reflexivity].
  - intros t0 ip m times i limited Hopen Hall Hi. simpl in Hi.
    rewrite (check_resets _ _ _ Hopen) in Hi.
    set (m1 := <[ip := {| count := 1; start := t0 |}]> m) in *.
    destruct (checks check ip times m1) as [verdicts m2] eqn:Hrec.
    destruct i as [|i]; simpl in Hi.
    + injection Hi as <-. split; [lia|reflexivity].
    + assert (Hm1 : m1 !! ip = Some {| count := 1; start := t0 |})
        by apply lookup_insert_eq.
      pose proof (checks_in_window t0 ip times m1 1 i limited Hm1 Hall) as H.
      rewrite Hrec in H. rewrite (H Hi). lia.
  - intros ip m e Hm. apply (check_within _ _ _ _ Hm). lia.
  - intros t ip ip' m Hne. unfold fixedWindow.
    destruct (_ >? _); [apply lookup_insert_ne, Hne|].
    destruct (_ >=? _); [reflexivity|apply lookup_insert_ne, Hne].
Qed.
End FixedWindow.

(** C1.  The admission contract of the rate limiter, for both handlers: a
    check admits iff the entry of the IP is absent or expired (strictly more
    than the window length elapsed since windowStart; the entry is then
    reset to count 1, windowStart = now) or its count is strictly below the
    maximum (the count is then incremented); the N-th request of a window is
    admitted iff N is at most the maximum; a request exactly at
    windowStart + window length is counted in the old window.  The window
    is 60000 ms with at most 5 requests for the connection handler and
    300000 ms with at most 2 for the review handler. *)
Theorem rate_limiter_admission_contract :
  admission_contract 60000 5 Connexion.isRateLimited
  /\ admission_contract 300000 2 Avis.isRateLimited.
Proof.
  rewrite Connexion_isRateLimited_fixedWindow, Avis_isRateLimited_fixedWindow.
  split; apply fixedWindow_contract; lia.
Qed.

(** ** The origin guard *)

Lemma Connexion_handler_forbidden (w : World) (event : Event)
    (m : gmap jsstring Entry) :
  request_origin event <> Connexion.ALLOWED_ORIGIN ->
  Connexion.handler w event m =
    {| table := m; fetched := []; completion := Returned (plain 403 "Forbidden") |}.
Proof.
  intros H. apply str_eqb_neq in H. unfold Connexion.handler. cbv zeta.
  unfold request_origin in H. rewrite H. reflexivity.
Qed.

Lemma Avis_handler_forbidden (w : World) (event : Event)
    (m : gmap jsstring Entry) :
  request_origin event <> Avis.ALLOWED_ORIGIN ->
  Avis.handler w event m =
    {| table := m; fetched := []; completion := Returned (plain 403 "Forbidden") |}.
Proof.
  intros H. apply str_eqb_neq in H. unfold Avis.handler. cbv zeta.
  unfold request_origin in H. rewrite H. reflexivity.
Qed.

(** C7.  Origin guard: a request whose origin header is not exactly the
    allow-listed string (an absent header counts as the empty string) gets
    403 with body Forbidden from either handler, whatever its method and
    body; the rate-limit table is returned untouched and no outbound call
    is made. *)
Theorem origin_guard (w : World) (event : Event) (m : gmap jsstring Entry) :
  request_origin event <> js "https://devcenter.vyral-studio.fr" ->
  Connexion.handler w event m =
    {| table := m; fetched := []; completion := Returned (plain 403 "Forbidden") |}
  /\ Avis.handler w event m =
    {| table := m; fetched := []; completion := Returned (plain 403 "Forbidden") |}.
Proof.
  intros H. split.
  - apply Connexion_handler_forbidden, H.
  - apply Avis_handler_forbidden, H.
Qed.

Lemma origin_guard_witness :
  Connexion.handler (sample_world None Rejected) anonymous_request (table_with 1 0) =
    {| table := table_with 1 0; fetched := [];
       completion := Returned (plain 403 "Forbidden") |}
  /\ Avis.handler (sample_world None Rejected) anonymous_request (table_with 1 0) =
    {| table := table_with 1 0; fetched := [];
       completion := Returned (plain 403 "Forbidden") |}.
Proof.
  apply (origin_guard (sample_world None Rejected) anonymous_request (table_with 1 0)).
  vm_compute. discriminate.
Defined.

(** ** Denials of the rate limiter *)

Lemma Connexion_handler_429 (w : World) (event : Event)
    (m : gmap jsstring Entry) :
  request_origin event = Connexion.ALLOWED_ORIGIN ->
  httpMethod event = js "POST" ->
  (Connexion.isRateLimited (now w) (client_ip event) m).1 = true ->
  Connexion.handler w event m =
    {| table := m; fetched := [];
       completion := Returned
         {| statusCode := 429;
            body := Json (VObject [(js "error", VString (js "Too many requests"))]);
            response_headers := [(js "Content-Type", js "application/json")] |} |}.
Proof.
  intros Ho Hm Hl. unfold Connexion.handler. cbv zeta.
  unfold request_origin in Ho. rewrite Ho, Hm.
  replace (str_eqb Connexion.ALLOWED_ORIGIN Connexion.ALLOWED_ORIGIN) with true
    by (symmetry; apply str_eqb_eq; reflexivity).
  replace (str_eqb (js "POST") (js "POST")) with true by reflexivity.
  cbn [negb].
  pose proof (check_denial_keeps_table 60000 5 (now w) (client_ip event) m Hl) as Hk.
  rewrite Connexion_isRateLimited_fixedWindow in *.
  destruct (fixedWindow 60000 5 (now w) (client_ip event) m) as [limited m'].
  simpl in Hl, Hk. subst. reflexivity.
Qed.

Lemma Avis_handler_429 (w : World) (event : Event)
    (m : gmap jsstring Entry) :
  request_origin event = Avis.ALLOWED_ORIGIN ->
  httpMethod event = js "POST" ->
  (Avis.isRateLimited (now w) (client_ip event) m).1 = true ->
  Avis.handler w event m =
    {| table := m; fetched := [];
       completion := Returned
         {| statusCode := 429;
            body := Json (VObject [(js "error", VString Avis.TOO_MANY)]);
            response_headers := [(js "Content-Type", js "application/json")] |} |}.
Proof.
  intros Ho Hm Hl. unfold Avis.handler. cbv zeta.
  unfold request_origin in Ho. rewrite Ho, Hm.
  replace (str_eqb Avis.ALLOWED_ORIGIN Avis.ALLOWED_ORIGIN) with true
    by (symmetry; apply str_eqb_eq; reflexivity).
  replace (str_eqb (js "POST") (js "POST")) with true by reflexivity.
  cbn [negb].
  pose proof (check_denial_keeps_table 300000 2 (now w) (client_ip event) m Hl) as Hk.
  rewrite Avis_isRateLimited_fixedWindow in *.
  destruct (fixedWindow 300000 2 (now w) (client_ip event) m) as [limited m'].
  simpl in Hl, Hk. subst. reflexivity.
Qed.

(** C9.  Denial is atomic, in both handlers: when the entry of the client
    IP is inside its window (at most the window length elapsed since
    windowStart) and its count has reached the maximum, the admission check
    denies, the handler answers 429 with a JSON error body, makes no
    outbound call, and returns the table it was given, so the entry keeps
    its count and windowStart for the next request. *)
Theorem rate_limit_denial_atomic (w : World) (event : Event)
    (m : gmap jsstring Entry) (e : Entry) :
  request_origin event = js "https://devcenter.vyral-studio.fr" ->
  httpMethod event = js "POST" ->
  m !! client_ip event = Some e ->
  (now w - start e <= 60000 -> 5 <= count e ->
   Connexion.isRateLimited (now w) (client_ip event) m = (true, m)
   /\ Connexion.handler w event m =
      {| table := m; fetched := [];
         completion := Returned
           {| statusCode := 429;
              body := Json (VObject [(js "error", VString (js "Too many requests"))]);
              response_headers := [(js "Content-Type", js "application/json")] |} |}
   /\ table (Connexion.handler w event m) !! client_ip event = Some e)
  /\ (now w - start e <= 300000 -> 2 <= count e ->
   Avis.isRateLimited (now w) (client_ip event) m = (true, m)
   /\ Avis.handler w event m =
      {| table := m; fetched := [];
         completion := Returned
           {| statusCode := 429;
              body := Json (VObject [(js "error", VString Avis.TOO_MANY)]);
              response_headers := [(js "Content-Type", js "application/json")] |} |}
   /\ table (Avis.handler w event m) !! client_ip event = Some e).
Proof.
  intros Ho Hp He. split; intros Ht Hc.
  - assert (Hd : Connexion.isRateLimited (now w) (client_ip event) m = (true, m)).
    { rewrite Connexion_isRateLimited_fixedWindow.
      rewrite (check_within 60000 5 _ _ _ _ He Ht).
      destruct (count e >=? 5) eqn:E; [reflexivity|lia]. }
    split; [exact Hd|].
    rewrite (Connexion_handler_429 w event m Ho Hp) by (rewrite Hd; reflexivity).
    split; [reflexivity|exact He].
  - assert (Hd : Avis.isRateLimited (now w) (client_ip event) m = (true, m)).
    { rewrite Avis_isRateLimited_fixedWindow.
      rewrite (check_within 300000 2 _ _ _ _ He Ht).
      destruct (count e >=? 2) eqn:E; [reflexivity|lia]. }
    split; [exact Hd|].
    rewrite (Avis_handler_429 w event m Ho Hp) by (rewrite Hd; reflexivity).
    split; [reflexivity|exact He].
Qed.

Lemma rate_limit_denial_atomic_witness :
  (Connexion.isRateLimited 1700000000000 (js "203.0.113.7")
     (table_with 5 (1700000000000 - 60000))
   = (true, table_with 5 (1700000000000 - 60000))
   /\ Connexion.handler (sample_world (Some sample_url) (Resolved true))
        (post (Some VNull)) (table_with 5 (1700000000000 - 60000)) =
      {| table := table_with 5 (1700000000000 - 60000); fetched := [];
         completion := Returned
           {| statusCode := 429;
              body := Json (VObject [(js "error", VString (js "Too many requests"))]);
              response_headers := [(js "Content-Type", js "application/json")] |} |})
  /\ (Avis.isRateLimited 1700000000000 (js "203.0.113.7")
        (table_with 2 (1700000000000 - 300000))
      = (true, table_with 2 (1700000000000 - 300000))
      /\ Avis.handler (sample_world (Some sample_url) (Resolved true))
           (post (Some VNull)) (table_with 2 (1700000000000 - 300000)) =
         {| table := table_with 2 (1700000000000 - 300000); fetched := [];
            completion := Returned
              {| statusCode := 429;
                 body := Json (VObject [(js "error", VString Avis.TOO_MANY)]);
                 response_headers := [(js "Content-Type", js "application/json")] |} |}).
Proof.
  split.
  - assert (H := proj1 (rate_limit_denial_atomic
                 (sample_world (Some sample_url) (Resolved true))
                 (post (Some VNull)) (table_with 5 (1700000000000 - 60000))
                 {| count := 5; start := 1700000000000 - 60000 |}
                 eq_refl eq_refl eq_refl)).
    destruct H as (H1 & H2 & _); [vm_compute; discriminate|vm_compute; discriminate|].
    split; [exact H1|exact H2].
  - assert (H := proj2 (rate_limit_denial_atomic
                 (sample_world (Some sample_url) (Resolved true))
                 (post (Some VNull)) (table_with 2 (1700000000000 - 300000))
                 {| count := 2; start := 1700000000000 - 300000 |}
                 eq_refl eq_refl eq_refl)).
    destruct H as (H1 & H2 & _); [vm_compute; discriminate|vm_compute; discriminate|].
    split; [exact H1|exact H2].
Defined.

(** ** The connection handler, stage by stage *)

Lemma str_eqb_refl (a : jsstring) : str_eqb a a = true.
Proof. apply str_eqb_eq. reflexivity. Qed.

Ltac pass_guards H :=
  let Ho := fresh "Ho" in
  let Hp := fresh "Hp" in
  let Ha := fresh "Ha" in
  destruct H as (Ho & Hp & Ha); unfold request_origin in Ho;
  cbv zeta; rewrite Ho, Hp, Ha, !str_eqb_refl; cbn [negb].

Lemma Connexion_invalid_json (w : World) (event : Event)
    (m m' : gmap jsstring Entry) :
  Connexion_admitted w event m m' ->
  body_json event = None ->
  Connexion.handler w event m =
    {| table := m'; fetched := []; completion := Returned (plain 400 "Invalid JSON") |}.
Proof.
  intros H Hb. unfold Connexion.handler. pass_guards H. rewrite Hb. reflexivity.
Qed.

Lemma Connexion_nullish_payload (w : World) (event : Event)
    (m m' : gmap jsstring Entry) (payload : value) :
  Connexion_admitted w event m m' ->
  body_json event = Some payload ->
  Get payload (js "embeds") = None ->
  Connexion.handler w event m =
    {| table := m'; fetched := []; completion := Thrown |}.
Proof.
  intros H Hb Hg. unfold Connexion.handler. pass_guards H. rewrite Hb, Hg.
  reflexivity.
Qed.

Lemma Connexion_invalid_structure (w : World) (event : Event)
    (m m' : gmap jsstring Entry) (payload embeds : value) :
  Connexion_admitted w event m m' ->
  body_json event = Some payload ->
  Get payload (js "embeds") = Some embeds ->
  isArray embeds = false ->
  Connexion.handler w event m =
    {| table := m'; fetched := [];
       completion := Returned (plain 400 "Invalid payload structure") |}.
Proof.
  intros H Hb Hg Harr. unfold Connexion.handler. pass_guards H.
  rewrite Hb, Hg, Harr, orb_true_r. reflexivity.
Qed.

Lemma Connexion_sanitizer_raises (w : World) (event : Event)
    (m m' : gmap jsstring Entry) (payload : value) (embeds : list value) :
  Connexion_admitted w event m m' ->
  body_json event = Some payload ->
  Get payload (js "embeds") = Some (VArray embeds) ->
  Connexion.safePayload w embeds = None ->
  Connexion.handler w event m =
    {| table := m'; fetched := []; completion := Thrown |}.
Proof.
  intros H Hb Hg Hs. unfold Connexion.handler. pass_guards H.
  rewrite Hb, Hg. cbn [ToBoolean isArray negb orb]. rewrite Hs. reflexivity.
Qed.

Lemma Connexion_not_configured (w : World) (event : Event)
    (m m' : gmap jsstring Entry) (payload safe : value) (embeds : list value) :
  Connexion_admitted w event m m' ->
  body_json event = Some payload ->
  Get payload (js "embeds") = Some (VArray embeds) ->
  Connexion.safePayload w embeds = Some safe ->
  url_missing (env_webhook w) = true ->
  Connexion.handler w event m =
    {| table := m'; fetched := [];
       completion := Returned (plain 500 "Webhook not configured") |}.
Proof.
  intros H Hb Hg Hs Hu. unfold Connexion.handler. pass_guards H.
  rewrite Hb, Hg. cbn [ToBoolean isArray negb orb]. rewrite Hs, Hu. reflexivity.
Qed.

Lemma Connexion_forwards (w : World) (event : Event)
    (m m' : gmap jsstring Entry) (payload safe : value) (embeds : list value)
    (url : jsstring) :
  Connexion_admitted w event m m' ->
  body_json event = Some payload ->
  Get payload (js "embeds") = Some (VArray embeds) ->
  Connexion.safePayload w embeds = Some safe ->
  env_webhook w = Some url -> url <> [] ->
  Connexion.handler w event m =
    {| table := m'; fetched := [post_to url safe];
       completion := Returned (forward_response (fetch w (post_to url safe))) |}.
Proof.
  intros H Hb Hg Hs Hu Hne. unfold Connexion.handler. pass_guards H.
  rewrite Hb, Hg. cbn [ToBoolean isArray negb orb]. rewrite Hs, Hu.
  destruct url as [|c url]; [congruence|]. cbn [url_missing default].
  unfold post_to, json_headers.
  destruct (fetch w _) as [[|]|]; reflexivity.
Qed.

(** ** The sanitiser of the connection handler *)

Arguments js : simpl never.

Lemma Get_GetOpt (v x : value) (k : jsstring) :
  Get v k = Some x -> GetOpt v k = x.
Proof. destruct v; simpl; congruence. Qed.

Lemma length_slice0 {A : Type} (n : Z) (s : list A) :
  0 <= n -> Z.of_nat (length (slice0 n s)) = Z.min n (Z.of_nat (length s)).
Proof. intros Hn. unfold slice0. rewrite length_take. lia. Qed.


(** Splits a chain of option binds that ends in [Some]. *)
Ltac split_binds H :=
  repeat (let x := fresh "x" in
          let Hx := fresh "Hx" in
          apply bind_Some in H as (x & Hx & H)).

Lemma safeField_inv (f out : value) :
  Connexion.safeField f = Some out ->
  exists name val,
    ToString (or_else (GetOpt f (js "name")) (VString [])) = Some name
    /\ ToString (or_else (GetOpt f (js "value")) (VString [])) = Some val
    /\ out = VObject [(js "name", VString (slice0 256 name));
                      (js "value", VString (slice0 1024 val));
                      (js "inline", VBool (ToBoolean (GetOpt f (js "inline"))))].
Proof.
  unfold Connexion.safeField. intros H. split_binds H.
  repeat match goal with
         | G : Get _ _ = Some _ |- _ => apply Get_GetOpt in G; subst
         end.
  injection H as <-. eauto.
Qed.

Lemma safeFields_serialised (fs outs : list value) :
  mapM Connexion.safeField fs = Some outs ->
  map (fun x => if is_undefined x then VNull else JSON_stringify x) outs = outs.
Proof.
  rewrite mapM_Some. induction 1 as [|f out fs outs Hf _ IH]; [reflexivity|].
  apply safeField_inv in Hf as (name & val & _ & _ & ->).
  cbn [map]. rewrite IH. reflexivity.
Qed.

Lemma safeFields_length (fs outs : list value) :
  mapM Connexion.safeField fs = Some outs -> length outs = length fs.
Proof. intros H. symmetry. eapply length_mapM, H. Qed.

(** The members of a forwarded embed, in terms of the client's embed. *)
Lemma safeEmbed_members (stamp : jsstring) (embed out : value) :
  Connexion.safeEmbed stamp embed = Some out ->
  (exists t, ToString (or_else (GetOpt embed (js "title")) (VString [])) = Some t
     /\ member "title" (JSON_stringify out) = Some (VString (slice0 256 t)))
  /\ (exists d, ToString (or_else (GetOpt embed (js "description")) (VString [])) = Some d
     /\ member "description" (JSON_stringify out) = Some (VString (slice0 4096 d)))
  /\ member "color" (JSON_stringify out) =
       Some (if typeof_number (GetOpt embed (js "color"))
             then GetOpt embed (js "color") else VNumber 0)
  /\ (if ToBoolean (GetOpt (GetOpt embed (js "thumbnail")) (js "url"))
      then exists u,
             ToString (GetOpt (GetOpt embed (js "thumbnail")) (js "url")) = Some u
             /\ member "thumbnail" (JSON_stringify out) =
                  Some (VObject [(js "url", VString (slice0 512 u))])
      else member "thumbnail" (JSON_stringify out) = None)
  /\ (exists fs', member "fields" (JSON_stringify out) = Some (VArray fs')
       /\ match GetOpt embed (js "fields") with
          | VArray fs => mapM Connexion.safeField (slice0 25 fs) = Some fs'
          | _ => fs' = []
          end)
  /\ member "timestamp" (JSON_stringify out) = Some (VString stamp)
  /\ exists props, JSON_stringify out = VObject props.
Proof.
  unfold Connexion.safeEmbed. intros H.
  apply bind_Some in H as (vt & Hvt & H). apply bind_Some in H as (t & Ht & H).
  apply bind_Some in H as (vd & Hvd & H). apply bind_Some in H as (d & Hd & H).
  apply bind_Some in H as (vc & Hvc & H).
  apply bind_Some in H as (thumb & Hthumb & H).
  apply bind_Some in H as (th & Hth & H).
  apply bind_Some in H as (vf & Hvf & H).
  apply bind_Some in H as (fields & Hfields & H).
  apply Get_GetOpt in Hvt, Hvd, Hvc, Hthumb, Hvf. subst vt vd vc vf.
  injection H as <-.
  assert (Hfs : exists fs', fields = VArray fs'
            /\ match GetOpt embed (js "fields") with
               | VArray fs => mapM Connexion.safeField (slice0 25 fs) = Some fs'
               | _ => fs' = []
               end).
  { destruct (GetOpt embed (js "fields")); simplify_eq; eauto.
    apply fmap_Some in Hfields as (fs' & Hfs & ->). eauto. }
  clear Hfields. destruct Hfs as (fs' & -> & Hfs).
  assert (Hser : map (fun x => if is_undefined x then VNull else JSON_stringify x) fs' = fs').
  { destruct (GetOpt embed (js "fields")); subst; try reflexivity.
    eapply safeFields_serialised, Hfs. }
  assert (Hcolor : exists c, (if typeof_number (GetOpt embed (js "color"))
                              then GetOpt embed (js "color") else VNumber 0) = VNumber c).
  { destruct (GetOpt embed (js "color")); simpl; eauto. }
  destruct Hcolor as (c & Hc). rewrite Hc. rewrite Hthumb.
  destruct (ToBoolean (GetOpt thumb (js "url"))) eqn:Hurl.
  - apply bind_Some in Hth as (vu & Hvu & Hth).
    apply bind_Some in Hth as (u & Hu & Hth). injection Hth as <-.
    apply Get_GetOpt in Hvu. subst vu.
    cbn [JSON_stringify is_undefined]. rewrite Hser.
    repeat split; eauto.
  - injection Hth as <-.
    cbn [JSON_stringify is_undefined]. rewrite Hser.
    repeat split; eauto.
Qed.

Lemma map_is_fmap {A B : Type} (f : A -> B) (l : list A) : map f l = f <$> l.
Proof. induction l as [|x l IH]; [reflexivity|]. simpl. rewrite IH. reflexivity. Qed.

(** The sanitised payload holds one embed per embed of the client, in the
    same order, each stamped by the runtime. *)
Lemma safePayload_inv (w : World) (embeds : list value) (safe : value) :
  Connexion.safePayload w embeds = Some safe ->
  exists outs,
    JSON_stringify safe = VObject [(js "embeds", VArray (JSON_stringify <$> outs))]
    /\ length outs = length embeds
    /\ forall (i : nat) embed, embeds !! i = Some embed ->
         exists out, outs !! i = Some out
                     /\ Connexion.safeEmbed (toISOString w i) embed = Some out.
Proof.
  unfold Connexion.safePayload. intros H.
  apply bind_Some in H as (outs & Houts & H). injection H as <-.
  apply mapM_Some in Houts. exists outs.
  assert (Hlen : length outs = length embeds).
  { apply Forall2_length in Houts. rewrite length_imap in Houts. lia. }
  assert (Hlook : forall (i : nat) embed, embeds !! i = Some embed ->
            exists out, outs !! i = Some out
                        /\ Connexion.safeEmbed (toISOString w i) embed = Some out).
  { intros i embed Hi.
    assert (Hi' : imap (fun i embed => Connexion.safeEmbed (toISOString w i) embed)
                    embeds !! i = Some (Connexion.safeEmbed (toISOString w i) embed))
      by (rewrite list_lookup_imap, Hi; reflexivity).
    destruct (Forall2_lookup_l _ _ _ _ _ Houts Hi') as (out & Hout & Hsafe).
    exists out. split; [exact Hout|exact Hsafe]. }
  repeat split; [|exact Hlen|exact Hlook].
  cbn [JSON_stringify is_undefined]. do 4 f_equal.
  rewrite <- (map_is_fmap JSON_stringify outs). apply map_ext_in. intros out Hin.
  apply list_elem_of_In, list_elem_of_lookup in Hin as (i & Hout).
  destruct (lookup_lt_is_Some_2 embeds i) as [embed Hembed].
  { rewrite <- Hlen. eapply lookup_lt_Some, Hout. }
  destruct (Hlook i embed Hembed) as (out' & Hout' & Hsafe).
  assert (out' = out) as -> by congruence.
  apply safeEmbed_members in Hsafe as (_ & _ & _ & _ & _ & _ & props & Hprops).
  destruct out; try discriminate Hprops; reflexivity.
Qed.

(** Every outbound call of the connection handler is the POST of a
    sanitised payload, made for an admitted request whose body holds an
    array of embeds, to the configured URL. *)
Lemma Connexion_fetched_inv (w : World) (event : Event)
    (m : gmap jsstring Entry) (call : FetchCall) :
  call ∈ fetched (Connexion.handler w event m) ->
  exists m' payload embeds safe url,
    Connexion_admitted w event m m'
    /\ body_json event = Some payload
    /\ Get payload (js "embeds") = Some (VArray embeds)
    /\ Connexion.safePayload w embeds = Some safe
    /\ env_webhook w = Some url /\ url <> []
    /\ call = post_to url safe.
Proof.
  unfold Connexion.handler. cbv zeta. unfold admitted, request_origin.
  destruct (str_eqb _ Connexion.ALLOWED_ORIGIN) eqn:Ho; cbn [negb];
    [|intros H; inversion H].
  destruct (str_eqb (httpMethod event) _) eqn:Hp; cbn [negb];
    [|intros H; inversion H].
  destruct (Connexion.isRateLimited _ _ _) as [[|] m'] eqn:Ha;
    [intros H; inversion H|].
  destruct (body_json event) as [payload|]; [|intros H; inversion H].
  destruct (Get payload _) as [embeds|] eqn:Hg; [|intros H; inversion H].
  destruct embeds as [| | | | |embeds|]; cbn [ToBoolean isArray negb orb];
    try (intros H; inversion H; fail);
    try (destruct (negb _); intros H; inversion H; fail).
  destruct (Connexion.safePayload w embeds) as [safe|] eqn:Hs;
    [|intros H; inversion H].
  destruct (env_webhook w) as [[|c url]|] eqn:Hu; cbn [url_missing];
    try (intros H; inversion H; fail).
  cbn [fetched]. intros H. apply list_elem_of_singleton in H.
  apply str_eqb_eq in Ho, Hp.
  exists m', payload, embeds, safe, (c :: url). repeat split; auto.
Qed.

Lemma ToString_or_else_string (d : jsstring) :
  ToString (or_else (VString d) (VString [])) = Some d.
Proof. destruct d; reflexivity. Qed.

(** C5.  Sanitisation by the connection handler.  Whenever the handler
    forwards a payload, the body sent holds one embed per embed of the
    client, in order, and for each of them: the description is the
    conversion to a string of the client description (the empty string when
    it is absent or falsy) cut to its first 4096 code units, so a string
    description is cut to min(4096, its length) units; the fields are the
    sanitised first 25 entries of the client array, and the empty array when
    the client's fields are absent or not an array; the timestamp is the one
    the runtime produced for that embed, whatever the client supplied. *)
Theorem connexion_sanitization (w : World) (event : Event)
    (m : gmap jsstring Entry) (call : FetchCall) :
  call ∈ fetched (Connexion.handler w event m) ->
  exists payload embeds forwarded,
    body_json event = Some payload
    /\ Get payload (js "embeds") = Some (VArray embeds)
    /\ fetch_body call = VObject [(js "embeds", VArray forwarded)]
    /\ length forwarded = length embeds
    /\ forall (i : nat) embed out,
         embeds !! i = Some embed -> forwarded !! i = Some out ->
         (exists d,
            ToString (or_else (GetOpt embed (js "description")) (VString [])) = Some d
            /\ member "description" out = Some (VString (slice0 4096 d))
            /\ Z.of_nat (length (slice0 4096 d)) = Z.min 4096 (Z.of_nat (length d)))
         /\ (forall d, GetOpt embed (js "description") = VString d ->
               member "description" out = Some (VString (slice0 4096 d)))
         /\ (exists fs',
               member "fields" out = Some (VArray fs')
               /\ match GetOpt embed (js "fields") with
                  | VArray fs =>
                      mapM Connexion.safeField (slice0 25 fs) = Some fs'
                      /\ Z.of_nat (length fs') = Z.min 25 (Z.of_nat (length fs))
                  | _ => fs' = []
                  end)
         /\ member "timestamp" out = Some (VString (toISOString w i)).
Proof.
  intros Hcall.
  apply Connexion_fetched_inv in Hcall
    as (m' & payload & embeds & safe & url & _ & Hb & Hg & Hs & _ & _ & ->).
  apply safePayload_inv in Hs as (outs & Hser & Hlen & Hlook).
  exists payload, embeds, (JSON_stringify <$> outs).
  split; [exact Hb|]. split; [exact Hg|]. split; [exact Hser|].
  split; [rewrite length_fmap; exact Hlen|].
  intros i embed out Hi Hout.
  destruct (Hlook i embed Hi) as (o & Ho & Hsafe).
  rewrite list_lookup_fmap, Ho in Hout. injection Hout as <-.
  apply safeEmbed_members in Hsafe
    as (_ & (d & Hd & Hdesc) & _ & _ & (fs' & Hfields & Hfs) & Hstamp & _).
  split; [|split; [|split]].
  - exists d. split; [exact Hd|]. split; [exact Hdesc|]. apply length_slice0. lia.
  - intros d' Hd'. rewrite Hd', ToString_or_else_string in Hd.
    injection Hd as <-. exact Hdesc.
  - exists fs'. split; [exact Hfields|].
    destruct (GetOpt embed (js "fields")); try exact Hfs.
    split; [exact Hfs|]. apply safeFields_length in Hfs.
    rewrite Hfs. apply length_slice0. lia.
  - exact Hstamp.
Qed.

Lemma connexion_sanitization_witness :
  exists call,
    fetched (Connexion.handler (sample_world (Some sample_url) (Resolved true))
               (post (Some (VObject [(js "embeds", VArray [long_embed])]))) ∅) = [call]
    /\ exists payload embeds forwarded,
         Some (VObject [(js "embeds", VArray [long_embed])]) = Some payload
         /\ Get payload (js "embeds") = Some (VArray embeds)
         /\ fetch_body call = VObject [(js "embeds", VArray forwarded)]
         /\ length forwarded = length embeds
         /\ forall (i : nat) embed out,
              embeds !! i = Some embed -> forwarded !! i = Some out ->
              (exists d,
                 ToString (or_else (GetOpt embed (js "description")) (VString [])) = Some d
                 /\ member "description" out = Some (VString (slice0 4096 d))
                 /\ Z.of_nat (length (slice0 4096 d)) = Z.min 4096 (Z.of_nat (length d)))
              /\ (forall d, GetOpt embed (js "description") = VString d ->
                    member "description" out = Some (VString (slice0 4096 d)))
              /\ (exists fs',
                    member "fields" out = Some (VArray fs')
                    /\ match GetOpt embed (js "fields") with
                       | VArray fs =>
                           mapM Connexion.safeField (slice0 25 fs) = Some fs'
                           /\ Z.of_nat (length fs') = Z.min 25 (Z.of_nat (length fs))
                       | _ => fs' = []
                       end)
              /\ member "timestamp" out =
                   Some (VString (js "2023-11-14T22:13:20.000Z")).
Proof.
  eexists. split; [vm_compute; reflexivity|].
  apply (connexion_sanitization (sample_world (Some sample_url) (Resolved true))
           (post (Some (VObject [(js "embeds", VArray [long_embed])]))) ∅).
  vm_compute. constructor.
Defined.

(** ** The review handler, stage by stage *)

Lemma Get_not_nullish (v : value) (k : jsstring) :
  nullish v = false -> Get v k = Some (GetOpt v k).
Proof. destruct v; simpl; congruence. Qed.

Lemma truthy_member_not_nullish (v : value) (k : jsstring) :
  ToBoolean (GetOpt v k) = true -> nullish v = false.
Proof. destruct v; simpl; congruence. Qed.

Lemma required_fields_not_nullish (payload : value) :
  required_fields payload = true -> nullish payload = false.
Proof.
  unfold required_fields. rewrite !andb_true_iff. intros [[[H _] _] _].
  eapply truthy_member_not_nullish, H.
Qed.

Lemma rating_in_range_spec (x : number) :
  rating_in_range x = true <-> exists n, x = Int n /\ 1 <= n <= 5.
Proof.
  unfold rating_in_range. destruct x as [|n]; simpl.
  - split; [discriminate|]. intros (n & [=] & _).
  - rewrite negb_true_iff, orb_false_iff, Z.ltb_ge, Z.gtb_ltb, Z.ltb_ge. split.
    + intros [? ?]. exists n. split; [reflexivity|lia].
    + intros (n' & [= <-] & ?). lia.
Qed.

(** Brings an admitted request with a parsed body that is not nullish to
    the test of the required fields. *)
Ltac enter_review H Hb Hnn :=
  unfold Avis.handler; pass_guards H; rewrite Hb;
  rewrite !(Get_not_nullish _ _ Hnn).

Lemma Avis_invalid_json (w : World) (event : Event)
    (m m' : gmap jsstring Entry) :
  Avis_admitted w event m m' ->
  body_json event = None ->
  Avis.handler w event m =
    {| table := m'; fetched := []; completion := Returned (plain 400 "Invalid JSON") |}.
Proof.
  intros H Hb. unfold Avis.handler. pass_guards H. rewrite Hb. reflexivity.
Qed.

Lemma Avis_nullish_payload (w : World) (event : Event)
    (m m' : gmap jsstring Entry) (payload : value) :
  Avis_admitted w event m m' ->
  body_json event = Some payload ->
  nullish payload = true ->
  Avis.handler w event m =
    {| table := m'; fetched := []; completion := Thrown |}.
Proof.
  intros H Hb Hn. unfold Avis.handler. pass_guards H. rewrite Hb.
  destruct payload; try discriminate; reflexivity.
Qed.

Lemma Avis_missing_fields (w : World) (event : Event)
    (m m' : gmap jsstring Entry) (payload : value) :
  Avis_admitted w event m m' ->
  body_json event = Some payload ->
  nullish payload = false ->
  required_fields payload = false ->
  Avis.handler w event m =
    {| table := m'; fetched := []; completion := Returned (plain 400 "Missing fields") |}.
Proof.
  intros H Hb Hnn Hr. enter_review H Hb Hnn.
  unfold required_fields in Hr.
  rewrite <- !negb_andb, Hr. reflexivity.
Qed.

Lemma required_fields_test (payload : value) :
  required_fields payload = true ->
  negb (ToBoolean (GetOpt payload (js "username")))
  || negb (ToBoolean (GetOpt payload (js "userId")))
  || negb (ToBoolean (GetOpt payload (js "rating")))
  || negb (ToBoolean (GetOpt payload (js "comment"))) = false.
Proof.
  unfold required_fields. intros Hr. rewrite <- !negb_andb, Hr. reflexivity.
Qed.

Lemma Avis_rating_raises (w : World) (event : Event)
    (m m' : gmap jsstring Entry) (payload : value) :
  Avis_admitted w event m m' ->
  body_json event = Some payload ->
  required_fields payload = true ->
  parseInt (GetOpt payload (js "rating")) = None ->
  Avis.handler w event m =
    {| table := m'; fetched := []; completion := Thrown |}.
Proof.
  intros H Hb Hr Hp. pose proof (required_fields_not_nullish _ Hr) as Hnn.
  enter_review H Hb Hnn. rewrite (required_fields_test _ Hr), Hp. reflexivity.
Qed.


Lemma rating_test (r : number) :
  rating_in_range r = true -> isNaN r || num_lt r 1 || num_gt r 5 = false.
Proof. unfold rating_in_range. apply negb_true_iff. Qed.

(** Brings a request whose rating passed to the conversion of the comment. *)
Ltac pass_rating H Hb Hr Hp Hrange :=
  let Hnn := fresh "Hnn" in
  pose proof (required_fields_not_nullish _ Hr) as Hnn;
  enter_review H Hb Hnn;
  rewrite (required_fields_test _ Hr), Hp, (rating_test _ Hrange).

Lemma Avis_comment_raises (w : World) (event : Event)
    (m m' : gmap jsstring Entry) (payload : value) (r : number) :
  Avis_admitted w event m m' ->
  body_json event = Some payload ->
  required_fields payload = true ->
  parseInt (GetOpt payload (js "rating")) = Some r ->
  rating_in_range r = true ->
  ToString (GetOpt payload (js "comment")) = None ->
  Avis.handler w event m =
    {| table := m'; fetched := []; completion := Thrown |}.
Proof.
  intros H Hb Hr Hp Hrange Hc. pass_rating H Hb Hr Hp Hrange.
  rewrite Hc. reflexivity.
Qed.

Lemma Avis_comment_too_short (w : World) (event : Event)
    (m m' : gmap jsstring Entry) (payload : value) (r : number) (c : jsstring) :
  Avis_admitted w event m m' ->
  body_json event = Some payload ->
  required_fields payload = true ->
  parseInt (GetOpt payload (js "rating")) = Some r ->
  rating_in_range r = true ->
  ToString (GetOpt payload (js "comment")) = Some c ->
  (length (trim (slice0 500 c)) < 5)%nat ->
  Avis.handler w event m =
    {| table := m'; fetched := [];
       completion := Returned (plain 400 "Comment too short") |}.
Proof.
  intros H Hb Hr Hp Hrange Hc Hlen. pass_rating H Hb Hr Hp Hrange.
  rewrite Hc. apply Nat.ltb_lt in Hlen. rewrite Hlen. reflexivity.
Qed.

Lemma Avis_userId_raises (w : World) (event : Event)
    (m m' : gmap jsstring Entry) (payload : value) (r : number) (c : jsstring) :
  Avis_admitted w event m m' ->
  body_json event = Some payload ->
  required_fields payload = true ->
  parseInt (GetOpt payload (js "rating")) = Some r ->
  rating_in_range r = true ->
  ToString (GetOpt payload (js "comment")) = Some c ->
  (5 <= length (trim (slice0 500 c)))%nat ->
  ToString (GetOpt payload (js "userId")) = None ->
  Avis.handler w event m =
    {| table := m'; fetched := []; completion := Thrown |}.
Proof.
  intros H Hb Hr Hp Hrange Hc Hlen Hu. pass_rating H Hb Hr Hp Hrange.
  rewrite Hc. apply Nat.ltb_ge in Hlen. rewrite Hlen, Hu. reflexivity.
Qed.


Lemma range_of_validated (n : Z) : 1 <= n <= 5 -> rating_in_range (Int n) = true.
Proof. intros Hn. apply rating_in_range_spec. eauto. Qed.

(** Brings a validated request to the read of the webhook URL. *)
Ltac pass_validation H Hb Hv :=
  let Hr := fresh "Hr" in
  let Hp := fresh "Hp" in
  let Hn := fresh "Hn" in
  let c := fresh "c" in
  let Hc := fresh "Hc" in
  let Hlen := fresh "Hlen" in
  let Hu := fresh "Hu" in
  let Ht := fresh "Ht" in
  destruct Hv as (Hr & Hp & Hn & (c & Hc & ->) & Hlen & Hu & Ht);
  pass_rating H Hb Hr Hp (range_of_validated _ Hn);
  rewrite Hc; apply Nat.ltb_ge in Hlen; rewrite Hlen, Hu, Ht; cbn [negb].

Lemma Avis_not_configured (w : World) (event : Event)
    (m m' : gmap jsstring Entry) (payload : value) (n : Z) (sc u : jsstring) :
  Avis_admitted w event m m' ->
  body_json event = Some payload ->
  Avis_validated payload n sc u ->
  url_missing (env_webhook w) = true ->
  Avis.handler w event m =
    {| table := m'; fetched := [];
       completion := Returned (plain 500 "Webhook not configured") |}.
Proof.
  intros H Hb Hv Hurl. pass_validation H Hb Hv. rewrite Hurl. reflexivity.
Qed.

Lemma Avis_payload_raises (w : World) (event : Event)
    (m m' : gmap jsstring Entry) (payload : value) (n : Z) (sc u : jsstring) :
  Avis_admitted w event m m' ->
  body_json event = Some payload ->
  Avis_validated payload n sc u ->
  url_missing (env_webhook w) = false ->
  Avis.safePayload (toISOString w 0) (GetOpt payload (js "username"))
    (GetOpt payload (js "userId")) (GetOpt payload (js "avatarUrl")) n sc = None ->
  Avis.handler w event m =
    {| table := m'; fetched := []; completion := Thrown |}.
Proof.
  intros H Hb Hv Hurl Hs. pass_validation H Hb Hv. rewrite Hurl, Hs. reflexivity.
Qed.

Lemma Avis_forwards (w : World) (event : Event)
    (m m' : gmap jsstring Entry) (payload safe : value) (n : Z)
    (sc u url : jsstring) :
  Avis_admitted w event m m' ->
  body_json event = Some payload ->
  Avis_validated payload n sc u ->
  env_webhook w = Some url -> url <> [] ->
  Avis.safePayload (toISOString w 0) (GetOpt payload (js "username"))
    (GetOpt payload (js "userId")) (GetOpt payload (js "avatarUrl")) n sc = Some safe ->
  Avis.handler w event m =
    {| table := m'; fetched := [post_to url safe];
       completion := Returned (forward_response (fetch w (post_to url safe))) |}.
Proof.
  intros H Hb Hv Hurl Hne Hs. pass_validation H Hb Hv. rewrite Hurl.
  destruct url as [|c0 url]; [congruence|]. cbn [url_missing default].
  rewrite Hs. unfold post_to, json_headers.
  destruct (fetch w _) as [[|]|]; reflexivity.
Qed.

Lemma required_fields_test_false (payload : value) :
  required_fields payload = false ->
  negb (ToBoolean (GetOpt payload (js "username")))
  || negb (ToBoolean (GetOpt payload (js "userId")))
  || negb (ToBoolean (GetOpt payload (js "rating")))
  || negb (ToBoolean (GetOpt payload (js "comment"))) = true.
Proof.
  unfold required_fields. intros Hr. rewrite <- !negb_andb, Hr. reflexivity.
Qed.

(** Closes a case in which the handler stopped before reading the URL. *)
Ltac stopped_early :=
  left; split; [reflexivity|];
  let r := fresh "r" in
  let Hr := fresh "Hr" in
  intros r Hr; inversion Hr; subst; cbn; lia.

(** Either the review handler stops before it reads the webhook URL, with
    no outbound call and no 500, or the request is admitted and its review
    passed every validation. *)
Lemma Avis_handler_cases (w : World) (event : Event) (m : gmap jsstring Entry) :
  (fetched (Avis.handler w event m) = []
   /\ forall r, completion (Avis.handler w event m) = Returned r ->
                statusCode r <> 500)
  \/ exists m' payload n sc u,
       Avis_admitted w event m m'
       /\ body_json event = Some payload
       /\ Avis_validated payload n sc u.
Proof.
  unfold Avis.handler. cbv zeta. unfold admitted, request_origin.
  destruct (str_eqb _ Avis.ALLOWED_ORIGIN) eqn:Ho; cbn [negb]; [|stopped_early].
  destruct (str_eqb (httpMethod event) _) eqn:Hp; cbn [negb]; [|stopped_early].
  destruct (Avis.isRateLimited _ _ _) as [[|] m'] eqn:Ha; [stopped_early|].
  destruct (body_json event) as [payload|]; [|stopped_early].
  destruct (nullish payload) eqn:Hnn.
  { destruct payload; try discriminate; stopped_early. }
  rewrite !(Get_not_nullish _ _ Hnn).
  destruct (required_fields payload) eqn:Hr;
    [rewrite (required_fields_test _ Hr)
    |rewrite (required_fields_test_false _ Hr); stopped_early].
  destruct (parseInt _) as [r|] eqn:Hrating; [|stopped_early].
  destruct (rating_in_range r) eqn:Hrange.
  2:{ unfold rating_in_range in Hrange. apply negb_false_iff in Hrange.
      rewrite Hrange. stopped_early. }
  rewrite (rating_test _ Hrange).
  apply rating_in_range_spec in Hrange as (n & -> & Hn).
  destruct (ToString (GetOpt payload (js "comment"))) as [c|] eqn:Hc;
    [|stopped_early].
  destruct (length (trim (slice0 500 c)) <? 5)%nat eqn:Hlen; [stopped_early|].
  destruct (ToString (GetOpt payload (js "userId"))) as [u|] eqn:Hu;
    [|stopped_early].
  destruct (test_digits_15_20 u) eqn:Ht; cbn [negb]; [|stopped_early].
  right. exists m', payload, n, (slice0 500 c), u.
  apply str_eqb_eq in Ho, Hp. apply Nat.ltb_ge in Hlen.
  unfold Avis_validated. repeat split; eauto; lia.
Qed.

(** Every outbound call of the review handler is the POST of the payload
    built from a validated review of an admitted request. *)
Lemma Avis_fetched_inv (w : World) (event : Event) (m : gmap jsstring Entry)
    (call : FetchCall) :
  call ∈ fetched (Avis.handler w event m) ->
  exists m' payload n sc u safe url,
    Avis_admitted w event m m'
    /\ body_json event = Some payload
    /\ Avis_validated payload n sc u
    /\ env_webhook w = Some url /\ url <> []
    /\ Avis.safePayload (toISOString w 0) (GetOpt payload (js "username"))
         (GetOpt payload (js "userId")) (GetOpt payload (js "avatarUrl")) n sc
       = Some safe
    /\ call = post_to url safe.
Proof.
  intros Hcall.
  destruct (Avis_handler_cases w event m)
    as [[Hf _]|(m' & payload & n & sc & u & Ha & Hb & Hv)].
  { rewrite Hf in Hcall. inversion Hcall. }
  destruct (url_missing (env_webhook w)) eqn:Hurl.
  { rewrite (Avis_not_configured _ _ _ _ _ _ _ _ Ha Hb Hv Hurl) in Hcall.
    inversion Hcall. }
  destruct (Avis.safePayload (toISOString w 0) (GetOpt payload (js "username"))
              (GetOpt payload (js "userId")) (GetOpt payload (js "avatarUrl")) n sc)
    as [safe|] eqn:Hs.
  2:{ rewrite (Avis_payload_raises _ _ _ _ _ _ _ _ Ha Hb Hv Hurl Hs) in Hcall.
      inversion Hcall. }
  destruct (env_webhook w) as [[|c0 url]|] eqn:Henv; try discriminate Hurl.
  assert (Hne : c0 :: url <> []) by discriminate.
  rewrite (Avis_forwards _ _ _ _ _ _ _ _ _ _ Ha Hb Hv Henv Hne Hs) in Hcall.
  apply list_elem_of_singleton in Hcall.
  exists m', payload, n, sc, u, safe, (c0 :: url).
  exact (conj Ha (conj Hb (conj Hv (conj eq_refl (conj Hne (conj Hs Hcall)))))).
Qed.

(** ** The payload of the review handler *)


(** ** Bounds on what is forwarded *)


Lemma length_repeat_star (n : nat) : length (repeat_str Avis.STAR n) = n.
Proof.
  unfold repeat_str. induction n as [|n IH]; [reflexivity|].
  simpl. rewrite IH. reflexivity.
Qed.





(** ** The validation rules of the review handler *)







(** ** The forwarder *)

Lemma url_missing_spec (u : option jsstring) :
  url_missing u = true <-> u = None \/ u = Some [].
Proof.
  destruct u as [[|c u]|]; simpl; split; auto; try discriminate;
    intros [H|H]; discriminate.
Qed.

(** C6.  Error mapping of the forwarder, for both handlers.  Take a request
    that reached the forwarder: admitted, with a body that passed
    validation (and, for the connection handler, was sanitised).  If the
    webhook variable is absent or empty the handler answers 500 without any
    outbound call.  Otherwise it makes exactly one outbound POST of the
    serialised payload to that URL, and answers 502 when the call resolves
    with a status that is not a success, 502 when the call raises, and on
    success 200 with body success:true and an Access-Control-Allow-Origin
    header holding the allow-listed origin. *)
Theorem forwarder_error_mapping (w : World) (event : Event)
    (m m' : gmap jsstring Entry) (payload : value) :
  body_json event = Some payload ->
  (forall embeds safe,
     Connexion_admitted w event m m' ->
     Get payload (js "embeds") = Some (VArray embeds) ->
     Connexion.safePayload w embeds = Some safe ->
     ((env_webhook w = None \/ env_webhook w = Some []) ->
      Connexion.handler w event m =
        {| table := m'; fetched := [];
           completion := Returned (plain 500 "Webhook not configured") |})
     /\ (forall url, env_webhook w = Some url -> url <> [] ->
         Connexion.handler w event m =
           {| table := m'; fetched := [post_to url safe];
              completion := Returned (forward_response (fetch w (post_to url safe))) |}))
  /\ (forall n sc u,
       Avis_admitted w event m m' ->
       Avis_validated payload n sc u ->
       ((env_webhook w = None \/ env_webhook w = Some []) ->
        Avis.handler w event m =
          {| table := m'; fetched := [];
             completion := Returned (plain 500 "Webhook not configured") |})
       /\ (forall url safe, env_webhook w = Some url -> url <> [] ->
           Avis.safePayload (toISOString w 0) (GetOpt payload (js "username"))
             (GetOpt payload (js "userId")) (GetOpt payload (js "avatarUrl")) n sc
             = Some safe ->
           Avis.handler w event m =
             {| table := m'; fetched := [post_to url safe];
                completion := Returned (forward_response (fetch w (post_to url safe))) |}))
  /\ forward_response (Resolved false) = plain 502 "Discord webhook failed"
  /\ forward_response Rejected = plain 502 "Network error"
  /\ forward_response (Resolved true) =
       {| statusCode := 200;
          body := Json (VObject [(js "success", VBool true)]);
          response_headers :=
            [(js "Content-Type", js "application/json");
             (js "Access-Control-Allow-Origin", Connexion.ALLOWED_ORIGIN)] |}.
Proof.
  intros Hb. split; [|split; [|repeat split]].
  - intros embeds safe Ha Hg Hs. split.
    + intros Hurl. apply url_missing_spec in Hurl.
      eapply Connexion_not_configured; eauto.
    + intros url Hurl Hne. eapply Connexion_forwards; eauto.
  - intros n sc u Ha Hv. split.
    + intros Hurl. apply url_missing_spec in Hurl.
      eapply Avis_not_configured; eauto.
    + intros url safe Hurl Hne Hs. eapply Avis_forwards; eauto.
Qed.

Lemma forwarder_error_mapping_witness :
  Connexion.handler (sample_world None (Resolved true)) (post (Some small_notice)) ∅ =
    {| table := table_with 1 1700000000000; fetched := [];
       completion := Returned (plain 500 "Webhook not configured") |}
  /\ completion (Connexion.handler (sample_world (Some sample_url) (Resolved false))
                   (post (Some small_notice)) ∅)
     = Returned (plain 502 "Discord webhook failed")
  /\ Avis.handler (sample_world (Some []) Rejected) (post (Some good_review)) ∅ =
    {| table := table_with 1 1700000000000; fetched := [];
       completion := Returned (plain 500 "Webhook not configured") |}
  /\ completion (Avis.handler (sample_world (Some sample_url) Rejected)
                   (post (Some good_review)) ∅)
     = Returned (plain 502 "Network error")
  /\ completion (Avis.handler (sample_world (Some sample_url) (Resolved true))
                   (post (Some good_review)) ∅)
     = Returned success_response.
Proof.
  assert (Hadm1 : forall w, now w = 1700000000000 ->
            Connexion_admitted w (post (Some small_notice)) ∅
              (table_with 1 1700000000000)).
  { intros w Hw. split; [|split]; [reflexivity|reflexivity|].
    rewrite Hw. vm_compute. reflexivity. }
  assert (Hadm2 : forall w, now w = 1700000000000 ->
            Avis_admitted w (post (Some good_review)) ∅
              (table_with 1 1700000000000)).
  { intros w Hw. split; [|split]; [reflexivity|reflexivity|].
    rewrite Hw. vm_compute. reflexivity. }
  assert (Hvalid : Avis_validated good_review 4
                     (js "Super service !") (js "123456789012345")).
  { unfold Avis_validated. repeat split; try (vm_compute; reflexivity);
      try (vm_compute; discriminate).
    - exists (js "Super service !"). split; vm_compute; reflexivity.
    - vm_compute. lia. }
  split; [|split; [|split; [|split]]].
  - destruct (forwarder_error_mapping (sample_world None (Resolved true))
                (post (Some small_notice)) ∅ (table_with 1 1700000000000)
                small_notice eq_refl) as (HC & _).
    edestruct HC as (H500 & _); [apply Hadm1; reflexivity|reflexivity
                                 |vm_compute; reflexivity|].
    apply H500. left. reflexivity.
  - destruct (forwarder_error_mapping (sample_world (Some sample_url) (Resolved false))
                (post (Some small_notice)) ∅ (table_with 1 1700000000000)
                small_notice eq_refl) as (HC & _).
    edestruct HC as (_ & Hfwd); [apply Hadm1; reflexivity|reflexivity
                                 |vm_compute; reflexivity|].
    rewrite (Hfwd sample_url eq_refl ltac:(discriminate)). reflexivity.
  - destruct (forwarder_error_mapping (sample_world (Some []) Rejected)
                (post (Some good_review)) ∅ (table_with 1 1700000000000)
                good_review eq_refl) as (_ & HA & _).
    destruct (HA _ _ _ (Hadm2 (sample_world (Some []) Rejected) eq_refl) Hvalid) as (H500 & _).
    apply H500. right. reflexivity.
  - destruct (forwarder_error_mapping (sample_world (Some sample_url) Rejected)
                (post (Some good_review)) ∅ (table_with 1 1700000000000)
                good_review eq_refl) as (_ & HA & _).
    destruct (HA _ _ _ (Hadm2 (sample_world (Some sample_url) Rejected) eq_refl) Hvalid) as (_ & Hfwd).
    erewrite (Hfwd sample_url _ eq_refl ltac:(discriminate));
      [reflexivity|vm_compute; reflexivity].
  - destruct (forwarder_error_mapping (sample_world (Some sample_url) (Resolved true))
                (post (Some good_review)) ∅ (table_with 1 1700000000000)
                good_review eq_refl) as (_ & HA & _).
    destruct (HA _ _ _ (Hadm2 (sample_world (Some sample_url) (Resolved true)) eq_refl) Hvalid) as (_ & Hfwd).
    erewrite (Hfwd sample_url _ eq_refl ltac:(discriminate));
      [reflexivity|vm_compute; reflexivity].
Defined.

(** ** Bodies of the wrong shape *)

(** What does hold of the handling of malformed bodies: a body that is not
    JSON gets 400, and so does a parsed body other than [null] that lacks
    an array of embeds (connection handler) or one of the four required
    fields (review handler). *)
Lemma wrong_shape_rejected_unless_null (w : World) (event : Event)
    (m m' : gmap jsstring Entry) :
  (Connexion_admitted w event m m' ->
   (body_json event = None ->
    Connexion.handler w event m =
      {| table := m'; fetched := []; completion := Returned (plain 400 "Invalid JSON") |})
   /\ (forall payload, body_json event = Some payload -> nullish payload = false ->
       isArray (GetOpt payload (js "embeds")) = false ->
       Connexion.handler w event m =
         {| table := m'; fetched := [];
            completion := Returned (plain 400 "Invalid payload structure") |}))
  /\ (Avis_admitted w event m m' ->
      (body_json event = None ->
       Avis.handler w event m =
         {| table := m'; fetched := []; completion := Returned (plain 400 "Invalid JSON") |})
      /\ (forall payload, body_json event = Some payload -> nullish payload = false ->
          required_fields payload = false ->
          Avis.handler w event m =
            {| table := m'; fetched := [];
               completion := Returned (plain 400 "Missing fields") |})).
Proof.
  split; intros Ha; split.
  - intros Hb. eapply Connexion_invalid_json; eauto.
  - intros payload Hb Hnn Harr.
    eapply Connexion_invalid_structure; eauto using Get_not_nullish.
  - intros Hb. eapply Avis_invalid_json; eauto.
  - intros payload Hb Hnn Hr. eapply Avis_missing_fields; eauto.
Qed.

(** C8, at the input on which the code departs from it.  The body [null]
    parses as JSON and holds neither an array of embeds nor any required
    field, yet neither handler answers 400: reading a property of [null]
    raises a TypeError outside the try block, so the invocation fails after
    the rate limiter has counted the request. *)
Theorem null_body_raises (w : World) (event : Event)
    (m m1 m2 : gmap jsstring Entry) :
  body_json event = Some VNull ->
  (Connexion_admitted w event m m1 ->
   Connexion.handler w event m =
     {| table := m1; fetched := []; completion := Thrown |})
  /\ (Avis_admitted w event m m2 ->
      Avis.handler w event m =
        {| table := m2; fetched := []; completion := Thrown |}).
Proof.
  intros Hb. split; intros Ha.
  - eapply Connexion_nullish_payload; eauto.
  - eapply Avis_nullish_payload; eauto.
Qed.

Lemma null_body_raises_witness :
  Connexion.handler (sample_world (Some sample_url) (Resolved true))
    (post (Some VNull)) ∅ =
    {| table := table_with 1 1700000000000; fetched := []; completion := Thrown |}
  /\ Avis.handler (sample_world (Some sample_url) (Resolved true))
       (post (Some VNull)) ∅ =
    {| table := table_with 1 1700000000000; fetched := []; completion := Thrown |}.
Proof.
  destruct (null_body_raises (sample_world (Some sample_url) (Resolved true))
              (post (Some VNull)) ∅ (table_with 1 1700000000000)
              (table_with 1 1700000000000) eq_refl) as (HC & HA).
  split; [apply HC|apply HA]; (split; [|split]); vm_compute; reflexivity.
Defined.

(** ** Validation before configuration *)

(** Closes a case in which both runs of a handler stop at the same place. *)
Ltac same_stop := intros; reflexivity.

Lemma Connexion_400_any_url (w : World) (event : Event)
    (m : gmap jsstring Entry) (url : option jsstring) (r : Response) :
  completion (Connexion.handler w event m) = Returned r ->
  statusCode r = 400 ->
  Connexion.handler (with_url w url) event m = Connexion.handler w event m.
Proof.
  unfold Connexion.handler, Connexion.safePayload, with_url.
  cbv zeta. cbn [now toISOString env_webhook fetch].
  destruct (str_eqb _ Connexion.ALLOWED_ORIGIN); cbn [negb]; [|same_stop].
  destruct (str_eqb (httpMethod event) _); cbn [negb]; [|same_stop].
  destruct (Connexion.isRateLimited _ _ _) as [[|] m']; [same_stop|].
  destruct (body_json event) as [payload|]; [|same_stop].
  destruct (Get payload _) as [embeds|]; [|same_stop].
  destruct (negb (ToBoolean embeds) || negb (isArray embeds)); [same_stop|].
  destruct (mapM id _) as [safe|]; cbn [mbind option_bind]; [|same_stop].
  destruct (url_missing (env_webhook w)).
  - intros [= <-]. discriminate.
  - cbn [completion]. intros [= <-].
    destruct (fetch w _) as [[|]|]; discriminate.
Qed.

Lemma Connexion_500_inv (w : World) (event : Event)
    (m : gmap jsstring Entry) (r : Response) :
  completion (Connexion.handler w event m) = Returned r ->
  statusCode r = 500 ->
  exists m' payload embeds safe,
    Connexion_admitted w event m m'
    /\ body_json event = Some payload
    /\ Get payload (js "embeds") = Some (VArray embeds)
    /\ Connexion.safePayload w embeds = Some safe
    /\ (env_webhook w = None \/ env_webhook w = Some []).
Proof.
  unfold Connexion.handler. cbv zeta. unfold admitted, request_origin.
  destruct (str_eqb _ Connexion.ALLOWED_ORIGIN) eqn:Ho; cbn [negb];
    [|intros [= <-]; discriminate].
  destruct (str_eqb (httpMethod event) _) eqn:Hp; cbn [negb];
    [|intros [= <-]; discriminate].
  destruct (Connexion.isRateLimited _ _ _) as [[|] m'] eqn:Ha;
    [intros [= <-]; discriminate|].
  destruct (body_json event) as [payload|]; [|intros [= <-]; discriminate].
  destruct (Get payload _) as [embeds|] eqn:Hg; [|discriminate].
  destruct embeds as [| | | | |embeds|]; cbn [ToBoolean isArray negb orb];
    try (intros [= <-]; discriminate);
    try (destruct (negb _); intros [= <-]; discriminate).
  destruct (Connexion.safePayload w embeds) as [safe|] eqn:Hs; [|discriminate].
  destruct (url_missing (env_webhook w)) eqn:Hu.
  - intros _ _. apply str_eqb_eq in Ho, Hp. apply url_missing_spec in Hu.
    exists m', payload, embeds, safe. auto.
  - cbn [completion]. intros [= <-].
    destruct (fetch w _) as [[|]|]; discriminate.
Qed.

Lemma Avis_400_any_url (w : World) (event : Event)
    (m : gmap jsstring Entry) (url : option jsstring) (r : Response) :
  completion (Avis.handler w event m) = Returned r ->
  statusCode r = 400 ->
  Avis.handler (with_url w url) event m = Avis.handler w event m.
Proof.
  unfold Avis.handler, with_url.
  cbv zeta. cbn [now toISOString env_webhook fetch].
  destruct (str_eqb _ Avis.ALLOWED_ORIGIN); cbn [negb]; [|same_stop].
  destruct (str_eqb (httpMethod event) _); cbn [negb]; [|same_stop].
  destruct (Avis.isRateLimited _ _ _) as [[|] m']; [same_stop|].
  destruct (body_json event) as [payload|]; [|same_stop].
  destruct (nullish payload) eqn:Hnn.
  { destruct payload; try discriminate; same_stop. }
  rewrite !(Get_not_nullish _ _ Hnn).
  destruct (_ || _ || _ || _); [same_stop|].
  destruct (parseInt _) as [safeRating|]; [|same_stop].
  destruct (_ || _ || _); [same_stop|].
  destruct (ToString (GetOpt payload (js "comment"))) as [c|]; [|same_stop].
  destruct (_ <? _)%nat; [same_stop|].
  destruct (ToString (GetOpt payload (js "userId"))) as [u|]; [|same_stop].
  destruct (negb _); [same_stop|].
  destruct (url_missing (env_webhook w)).
  - intros [= <-]. discriminate.
  - destruct (Avis.safePayload _ _ _ _ _ _) as [safe|]; [|discriminate].
    cbn [completion]. intros [= <-].
    destruct (fetch w _) as [[|]|]; discriminate.
Qed.

Lemma Avis_500_inv (w : World) (event : Event)
    (m : gmap jsstring Entry) (r : Response) :
  completion (Avis.handler w event m) = Returned r ->
  statusCode r = 500 ->
  exists m' payload n sc u,
    Avis_admitted w event m m'
    /\ body_json event = Some payload
    /\ Avis_validated payload n sc u
    /\ (env_webhook w = None \/ env_webhook w = Some []).
Proof.
  intros Hr H500.
  destruct (Avis_handler_cases w event m)
    as [[_ Hno]|(m' & payload & n & sc & u & Ha & Hb & Hv)].
  { exfalso. eapply Hno; eauto. }
  exists m', payload, n, sc, u. split; [exact Ha|]. split; [exact Hb|].
  split; [exact Hv|]. apply url_missing_spec.
  destruct (url_missing (env_webhook w)) eqn:Hurl; [reflexivity|]. exfalso.
  destruct (Avis.safePayload (toISOString w 0) (GetOpt payload (js "username"))
              (GetOpt payload (js "userId")) (GetOpt payload (js "avatarUrl")) n sc)
    as [safe|] eqn:Hs.
  - destruct (env_webhook w) as [[|c0 url]|] eqn:Henv; try discriminate Hurl.
    assert (Hne : c0 :: url <> []) by discriminate.
    rewrite (Avis_forwards _ _ _ _ _ _ _ _ _ _ Ha Hb Hv Henv Hne Hs) in Hr.
    cbn [completion] in Hr. injection Hr as <-.
    destruct (fetch w _) as [[|]|]; discriminate.
  - rewrite (Avis_payload_raises _ _ _ _ _ _ _ _ Ha Hb Hv Hurl Hs) in Hr.
    discriminate.
Qed.

(** C10.  Validation comes before configuration, in both handlers.  The
    webhook variable is read only once the payload passed validation: a 500
    is answered only to a request that passed the origin, method and
    rate-limit checks with a body that passed validation, the variable then
    being absent or empty; and whenever the answer is a 400 it is the same
    400, with the same table and no outbound call, whatever the value of
    the variable, in particular when it is not configured. *)
Theorem validation_precedes_configuration (w : World) (event : Event)
    (m : gmap jsstring Entry) (r : Response) :
  (completion (Connexion.handler w event m) = Returned r ->
   (statusCode r = 500 ->
    exists m' payload embeds safe,
      Connexion_admitted w event m m'
      /\ body_json event = Some payload
      /\ Get payload (js "embeds") = Some (VArray embeds)
      /\ Connexion.safePayload w embeds = Some safe
      /\ (env_webhook w = None \/ env_webhook w = Some []))
   /\ (statusCode r = 400 ->
       forall url,
         Connexion.handler (with_url w url) event m = Connexion.handler w event m
         /\ fetched (Connexion.handler w event m) = []))
  /\ (completion (Avis.handler w event m) = Returned r ->
      (statusCode r = 500 ->
       exists m' payload n sc u,
         Avis_admitted w event m m'
         /\ body_json event = Some payload
         /\ Avis_validated payload n sc u
         /\ (env_webhook w = None \/ env_webhook w = Some []))
      /\ (statusCode r = 400 ->
          forall url,
            Avis.handler (with_url w url) event m = Avis.handler w event m
            /\ fetched (Avis.handler w event m) = [])).
Proof.
  split; intros Hr; split.
  - intros H500. eapply Connexion_500_inv; eauto.
  - intros H400 url. split; [eapply Connexion_400_any_url; eauto|].
    destruct (fetched (Connexion.handler w event m)) as [|call calls] eqn:Hf;
      [reflexivity|]. exfalso.
    assert (Hcall : call ∈ fetched (Connexion.handler w event m))
      by (rewrite Hf; constructor).
    apply Connexion_fetched_inv in Hcall
      as (m' & payload & embeds & safe & u & Ha & Hb & Hg & Hs & Hu & Hne & _).
    rewrite (Connexion_forwards _ _ _ _ _ _ _ _ Ha Hb Hg Hs Hu Hne) in Hr.
    cbn [completion] in Hr. injection Hr as <-.
    destruct (fetch w _) as [[|]|]; discriminate.
  - intros H500. eapply Avis_500_inv; eauto.
  - intros H400 url. split; [eapply Avis_400_any_url; eauto|].
    destruct (fetched (Avis.handler w event m)) as [|call calls] eqn:Hf;
      [reflexivity|]. exfalso.
    assert (Hcall : call ∈ fetched (Avis.handler w event m))
      by (rewrite Hf; constructor).
    apply Avis_fetched_inv in Hcall
      as (m' & payload & n & sc & u0 & safe & u & Ha & Hb & Hv & Hu & Hne & Hs & _).
    rewrite (Avis_forwards _ _ _ _ _ _ _ _ _ _ Ha Hb Hv Hu Hne Hs) in Hr.
    cbn [completion] in Hr. injection Hr as <-.
    destruct (fetch w _) as [[|]|]; discriminate.
Qed.

Lemma validation_precedes_configuration_witness :
  (exists m' payload n sc u,
     Avis_admitted (sample_world None (Resolved true)) (post (Some good_review)) ∅ m'
     /\ Some good_review = Some payload
     /\ Avis_validated payload n sc u
     /\ (@None jsstring = None \/ @None jsstring = Some []))
  /\ forall url,
       Avis.handler (with_url (sample_world None (Resolved true)) url)
         (post (Some (review (VNumber 6) good_userId good_comment))) ∅
       = Avis.handler (sample_world None (Resolved true))
           (post (Some (review (VNumber 6) good_userId good_comment))) ∅
       /\ fetched (Avis.handler (sample_world None (Resolved true))
                     (post (Some (review (VNumber 6) good_userId good_comment))) ∅) = [].
Proof.
  split.
  - refine (proj1 (proj2 (validation_precedes_configuration
                            (sample_world None (Resolved true))
                            (post (Some good_review)) ∅
                            (plain 500 "Webhook not configured")) _) _);
      vm_compute; reflexivity.
  - refine (proj2 (proj2 (validation_precedes_configuration
                            (sample_world None (Resolved true))
                            (post (Some (review (VNumber 6) good_userId good_comment))) ∅
                            (plain 400 "Invalid rating")) _) _);
      vm_compute; reflexivity.
Defined.

(** ** The cases the specification lists, by evaluation *)

(** Six requests of one client within a minute: the connection handler
    admits five and denies the sixth; the review handler admits two. *)
Example six_requests_in_a_window :
  (checks Connexion.isRateLimited (js "203.0.113.7") [0; 10; 20; 30; 60000; 60000] ∅).1
    = [false; false; false; false; false; true]
  /\ (checks Avis.isRateLimited (js "203.0.113.7") [0; 10; 300000; 300000] ∅).1
    = [false; false; true; true].
Proof. split; vm_compute; reflexivity. Qed.

(** One millisecond after the window the counter starts again. *)
Example request_after_the_window :
  (checks Connexion.isRateLimited (js "203.0.113.7")
     [0; 1; 2; 3; 4; 5; 60001; 60002] ∅).1
    = [false; false; false; false; false; true; false; false]
  /\ (checks Connexion.isRateLimited (js "203.0.113.7")
        [0; 1; 2; 3; 4; 5; 60001; 60002] ∅).2
    = table_with 2 60001.
Proof. split; vm_compute; reflexivity. Qed.

(** A description of 10000 units is forwarded as its first 4096, 30 fields
    as the first 25, and the client timestamp is replaced. *)
Example long_embed_forwarded :
  exists out fs,
    fetch_body <$> fetched (Connexion.handler
                              (sample_world (Some sample_url) (Resolved true))
                              (post (Some (VObject [(js "embeds", VArray [long_embed])])))
                              ∅)
      = [VObject [(js "embeds", VArray [out])]]
    /\ member "description" out = Some (VString (replicate (Z.to_nat 4096) 97%N))
    /\ member "fields" out = Some (VArray fs) /\ length fs = 25%nat
    /\ member "thumbnail" out = None
    /\ member "timestamp" out = Some (VString (js "2023-11-14T22:13:20.000Z")).
Proof. eexists _, _. vm_compute. repeat split. Qed.

(** The review cases: status and text of the answer. *)
Example review_cases :
  review_answer (VNumber 0) good_userId good_comment
    = Returned (plain 400 "Missing fields")
  /\ review_answer (VNumber 6) good_userId good_comment
    = Returned (plain 400 "Invalid rating")
  /\ review_answer (VString (js "abc")) good_userId good_comment
    = Returned (plain 400 "Invalid rating")
  /\ review_answer (VNumber 3) (VString (js "123")) good_comment
    = Returned (plain 400 "Invalid user ID")
  /\ review_answer (VNumber 3) good_userId (VString (js "hi"))
    = Returned (plain 400 "Comment too short")
  /\ review_answer (VNumber 3) good_userId (VString (js "  hi      "))
    = Returned (plain 400 "Comment too short")
  /\ review_answer (VNumber 3) (VNumber 123456789012345) long_comment
    = Returned success_response
  /\ review_answer (VString (js " 4 stars")) good_userId good_comment
    = Returned success_response.
Proof. repeat split; vm_compute; reflexivity. Qed.

(** A field that cannot be converted to a string makes the invocation fail
    instead of being rejected: an object with an own toString member, as a
    rating, a comment or a user id. *)
Example unconvertible_fields_raise :
  review_answer (VObject [(js "toString", VNumber 1)]) good_userId good_comment = Thrown
  /\ review_answer (VNumber 3) good_userId (VObject [(js "toString", VNumber 1)]) = Thrown
  /\ review_answer (VNumber 3) (VObject [(js "toString", VNumber 1)]) good_comment = Thrown
  /\ completion (Connexion.handler (sample_world (Some sample_url) (Resolved true))
                   (post (Some (VObject [(js "embeds", VArray [VNull])]))) ∅) = Thrown.
Proof. repeat split; vm_compute; reflexivity. Qed.

(** The origin is compared exactly: another letter case, a trailing slash
    or an empty header are all refused, whatever the method. *)
Example origin_compared_exactly :
  completion (Avis.handler (sample_world (Some sample_url) (Resolved true))
    (request (js "https://DevCenter.vyral-studio.fr") (js "POST") (Some good_review)) ∅)
    = Returned (plain 403 "Forbidden")
  /\ completion (Connexion.handler (sample_world (Some sample_url) (Resolved true))
    (request (js "https://devcenter.vyral-studio.fr/") (js "POST") (Some small_notice)) ∅)
    = Returned (plain 403 "Forbidden")
  /\ completion (Connexion.handler (sample_world (Some sample_url) (Resolved true))
    (request [] (js "GET") None) ∅)
    = Returned (plain 403 "Forbidden")
  /\ completion (Connexion.handler (sample_world (Some sample_url) (Resolved true))
    (request (js "https://devcenter.vyral-studio.fr") (js "GET") None) ∅)
    = Returned (plain 405 "Method Not Allowed").
Proof. repeat split; vm_compute; reflexivity. Qed.

(** * Further properties of the handlers *)

(** ** The method guard *)

(** X1.  Method guard (source lines 43-46 and 153-155).  A request with the
    allow-listed origin whose method is not exactly POST gets 405 with body
    Method Not Allowed from either handler, whatever its body; the
    rate-limit table is returned untouched, so such a request does not
    count against the client, and no outbound call is made. *)
Theorem method_guard (w : World) (event : Event) (m : gmap jsstring Entry) :
  request_origin event = js "https://devcenter.vyral-studio.fr" ->
  httpMethod event <> js "POST" ->
  Connexion.handler w event m =
    {| table := m; fetched := [];
       completion := Returned (plain 405 "Method Not Allowed") |}
  /\ Avis.handler w event m =
    {| table := m; fetched := [];
       completion := Returned (plain 405 "Method Not Allowed") |}.
Proof.
  intros Ho Hm. apply str_eqb_neq in Hm. unfold request_origin in Ho. split.
  - unfold Connexion.handler. cbv zeta. rewrite Ho, Hm.
    replace (str_eqb _ Connexion.ALLOWED_ORIGIN) with true
      by (symmetry; apply str_eqb_eq; reflexivity).
    reflexivity.
  - unfold Avis.handler. cbv zeta. rewrite Ho, Hm.
    replace (str_eqb _ Avis.ALLOWED_ORIGIN) with true
      by (symmetry; apply str_eqb_eq; reflexivity).
    reflexivity.
Qed.

Lemma method_guard_witness :
  Connexion.handler (sample_world (Some sample_url) (Resolved true))
    (request (js "https://devcenter.vyral-studio.fr") (js "post") (Some small_notice))
    (table_with 5 0) =
    {| table := table_with 5 0; fetched := [];
       completion := Returned (plain 405 "Method Not Allowed") |}
  /\ Avis.handler (sample_world (Some sample_url) (Resolved true))
    (request (js "https://devcenter.vyral-studio.fr") (js "post") (Some small_notice))
    (table_with 5 0) =
    {| table := table_with 5 0; fetched := [];
       completion := Returned (plain 405 "Method Not Allowed") |}.
Proof.
  apply (method_guard (sample_world (Some sample_url) (Resolved true))
           (request (js "https://devcenter.vyral-studio.fr") (js "post")
              (Some small_notice))
           (table_with 5 0)).
  - vm_compute. reflexivity.
  - vm_compute. discriminate.
Defined.

(** ** The key of the rate limiter *)

Lemma split_comma_first_no_comma (h : jsstring) : 44%N ∉ split_comma_first h.
Proof.
  induction h as [|c h IH]; simpl; [apply not_elem_of_nil|].
  destruct (N.eqb c 44) eqn:E; [apply not_elem_of_nil|].
  apply N.eqb_neq in E. rewrite not_elem_of_cons. auto.
Qed.

Lemma split_comma_first_app (a b : jsstring) :
  44%N ∉ a -> split_comma_first (a ++ 44%N :: b) = a.
Proof.
  induction a as [|c a IH]; simpl; intros Hno; [reflexivity|].
  apply not_elem_of_cons in Hno as [Hc Ha].
  destruct (N.eqb c 44) eqn:E; [apply N.eqb_eq in E; congruence|].
  rewrite IH by exact Ha. reflexivity.
Qed.

Lemma split_comma_first_whole (a : jsstring) :
  44%N ∉ a -> split_comma_first a = a.
Proof.
  induction a as [|c a IH]; simpl; intros Hno; [reflexivity|].
  apply not_elem_of_cons in Hno as [Hc Ha].
  destruct (N.eqb c 44) eqn:E; [apply N.eqb_eq in E; congruence|].
  rewrite IH by exact Ha. reflexivity.
Qed.

Lemma unknown_no_comma : 44%N ∉ js "unknown".
Proof. rewrite list_elem_of_In. vm_compute. intuition discriminate. Qed.

(** X2.  The key under which a request is counted (source lines 49 and
    158).  Without a forwarded-for header the key is the literal unknown,
    and so it is when the header is empty or starts with a comma: all such
    clients share one counter.  Otherwise the key is the header up to its
    first comma, taken as it is (no trimming).  The key is never empty and
    never holds a comma. *)
Theorem client_ip_key (event : Event) :
  (forwarded_for event = None -> client_ip event = js "unknown")
  /\ (forall rest, forwarded_for event = Some (44%N :: rest) ->
      client_ip event = js "unknown")
  /\ (forwarded_for event = Some [] -> client_ip event = js "unknown")
  /\ (forall first rest,
        forwarded_for event = Some (first ++ 44%N :: rest) ->
        first <> [] -> 44%N ∉ first -> client_ip event = first)
  /\ (forall h, forwarded_for event = Some h ->
        h <> [] -> 44%N ∉ h -> client_ip event = h)
  /\ client_ip event <> []
  /\ 44%N ∉ client_ip event.
Proof.
  unfold client_ip, forwarded_for.
  split; [intros ->; reflexivity|].
  split; [intros rest ->; reflexivity|].
  split; [intros ->; reflexivity|].
  split; [|split; [|split]].
  - intros first rest -> Hne Hno. rewrite split_comma_first_app by exact Hno.
    destruct first; [congruence|reflexivity].
  - intros h -> Hne Hno. rewrite split_comma_first_whole by exact Hno.
    destruct h; [congruence|reflexivity].
  - destruct (headers event !! js "x-forwarded-for") as [h|]; [|discriminate].
    destruct (split_comma_first h); discriminate.
  - destruct (headers event !! js "x-forwarded-for") as [h|].
    + pose proof (split_comma_first_no_comma h) as Hno.
      destruct (split_comma_first h); [apply unknown_no_comma|exact Hno].
    + apply unknown_no_comma.
Qed.

(** ** What a request does to the rate-limit table *)

Lemma Connexion_table (w : World) (event : Event) (m : gmap jsstring Entry) :
  table (Connexion.handler w event m) =
    if str_eqb (request_origin event) Connexion.ALLOWED_ORIGIN
       && str_eqb (httpMethod event) (js "POST")
    then (Connexion.isRateLimited (now w) (client_ip event) m).2
    else m.
Proof.
  unfold Connexion.handler, request_origin. cbv zeta.
  destruct (str_eqb _ Connexion.ALLOWED_ORIGIN); cbn [negb andb]; [|reflexivity].
  destruct (str_eqb (httpMethod event) _); cbn [negb]; [|reflexivity].
  destruct (Connexion.isRateLimited _ _ _) as [[|] m']; [reflexivity|].
  destruct (body_json event) as [payload|]; [|reflexivity].
  destruct (Get payload _) as [embeds|]; [|reflexivity].
  destruct (negb (ToBoolean embeds) || negb (isArray embeds)); [reflexivity|].
  destruct (Connexion.safePayload _ _); [|reflexivity].
  destruct (url_missing _); reflexivity.
Qed.

Lemma Avis_table (w : World) (event : Event) (m : gmap jsstring Entry) :
  table (Avis.handler w event m) =
    if str_eqb (request_origin event) Avis.ALLOWED_ORIGIN
       && str_eqb (httpMethod event) (js "POST")
    then (Avis.isRateLimited (now w) (client_ip event) m).2
    else m.
Proof.
  unfold Avis.handler, request_origin. cbv zeta.
  destruct (str_eqb _ Avis.ALLOWED_ORIGIN); cbn [negb andb]; [|reflexivity].
  destruct (str_eqb (httpMethod event) _); cbn [negb]; [|reflexivity].
  destruct (Avis.isRateLimited _ _ _) as [[|] m']; [reflexivity|].
  destruct (body_json event) as [payload|]; [|reflexivity].
  destruct (nullish payload) eqn:Hnn.
  { destruct payload; try discriminate; reflexivity. }
  rewrite !(Get_not_nullish _ _ Hnn).
  destruct (_ || _ || _ || _); [reflexivity|].
  destruct (parseInt _) as [safeRating|]; [|reflexivity].
  destruct (_ || _ || _); [reflexivity|].
  destruct (ToString (GetOpt payload (js "comment"))) as [c|]; [|reflexivity].
  destruct (_ <? _)%nat; [reflexivity|].
  destruct (ToString (GetOpt payload (js "userId"))) as [u|]; [|reflexivity].
  destruct (negb _); [reflexivity|].
  destruct (url_missing _); [reflexivity|].
  destruct (Avis.safePayload _ _ _ _ _ _); reflexivity.
Qed.

(** X3.  What a request does to the table depends on its origin, method,
    client key and on the clock only (source lines 36-56 and 146-165).
    Once the origin and the method are accepted the request is counted,
    whatever becomes of it afterwards: a body that is not JSON, a payload
    rejected with 400, a missing webhook URL, a failed outbound call or an
    invocation that raises all leave the table the admission check
    produced. *)
Theorem request_is_counted_before_validation (w : World) (event : Event)
    (m : gmap jsstring Entry) :
  request_origin event = js "https://devcenter.vyral-studio.fr" ->
  httpMethod event = js "POST" ->
  table (Connexion.handler w event m)
    = (Connexion.isRateLimited (now w) (client_ip event) m).2
  /\ table (Avis.handler w event m)
    = (Avis.isRateLimited (now w) (client_ip event) m).2.
Proof.
  intros Ho Hp. rewrite Connexion_table, Avis_table, Ho, Hp.
  split; reflexivity.
Qed.

Lemma request_is_counted_before_validation_witness :
  table (Connexion.handler (sample_world None Rejected) (post None) (table_with 2 1699999999000))
    = (Connexion.isRateLimited 1700000000000 (js "203.0.113.7")
         (table_with 2 1699999999000)).2
  /\ table (Avis.handler (sample_world None Rejected) (post None) (table_with 2 1699999999000))
    = (Avis.isRateLimited 1700000000000 (js "203.0.113.7")
         (table_with 2 1699999999000)).2.
Proof.
  apply (request_is_counted_before_validation (sample_world None Rejected)
           (post None) (table_with 2 1699999999000)); vm_compute; reflexivity.
Defined.

(** ** Invariants of the table *)

Section FixedWindowInvariants.
Variables WINDOW MAX : Z.
Hypothesis MAX_pos : 0 < MAX.

Lemma fixedWindow_counts_bounded (t : Z) (ip : jsstring)
    (m : gmap jsstring Entry) :
  counts_bounded MAX m ->
  counts_bounded MAX (fixedWindow WINDOW MAX t ip m).2.
Proof.
  unfold counts_bounded. intros Hm ip' e'. unfold fixedWindow.
  destruct (m !! ip) as [e|] eqn:He; simpl.
  - destruct (_ >? _); simpl.
    + rewrite lookup_insert. case_decide; [intros [= <-]; simpl; lia|apply Hm].
    + destruct (count e >=? MAX) eqn:E; simpl; [apply Hm|].
      rewrite lookup_insert. case_decide; [|apply Hm].
      intros [= <-]. simpl. pose proof (Hm ip e He). lia.
  - destruct (_ >? _); simpl.
    + rewrite lookup_insert. case_decide; [intros [= <-]; simpl; lia|apply Hm].
    + destruct (0 >=? MAX) eqn:E; simpl; [apply Hm|].
      rewrite lookup_insert. case_decide; [intros [= <-]; simpl; lia|apply Hm].
Qed.

Lemma fixedWindow_dom (t : Z) (ip : jsstring) (m : gmap jsstring Entry) :
  dom m ⊆ dom (fixedWindow WINDOW MAX t ip m).2.
Proof.
  unfold fixedWindow. destruct (_ >? _); simpl;
    [rewrite dom_insert; set_solver|].
  destruct (_ >=? _); simpl; [reflexivity|rewrite dom_insert; set_solver].
Qed.

Lemma fixedWindow_other (t : Z) (ip ip' : jsstring) (m : gmap jsstring Entry) :
  ip <> ip' -> (fixedWindow WINDOW MAX t ip m).2 !! ip' = m !! ip'.
Proof.
  intros Hne. unfold fixedWindow.
  destruct (_ >? _); [apply lookup_insert_ne, Hne|].
  destruct (_ >=? _); [reflexivity|apply lookup_insert_ne, Hne].
Qed.

(** Once the entry of an IP is full, its requests inside the window are all
    denied and change nothing. *)
Lemma checks_while_full (ip : jsstring) (times : list Z)
    (m : gmap jsstring Entry) (e : Entry) :
  m !! ip = Some e -> MAX <= count e ->
  Forall (fun t => t - start e <= WINDOW) times ->
  checks (fixedWindow WINDOW MAX) ip times m = (replicate (length times) true, m).
Proof.
  intros He Hfull. induction 1 as [|t times Ht _ IH]; [reflexivity|].
  simpl. rewrite (check_within WINDOW MAX t ip m e He Ht).
  destruct (count e >=? MAX) eqn:E; [|lia]. rewrite IH. reflexivity.
Qed.
End FixedWindowInvariants.

Lemma Connexion_table_step (w : World) (event : Event) (m : gmap jsstring Entry) :
  table (Connexion.handler w event m) = m
  \/ table (Connexion.handler w event m)
     = (fixedWindow 60000 5 (now w) (client_ip event) m).2.
Proof.
  rewrite Connexion_table. destruct (_ && _); [right; reflexivity|left; reflexivity].
Qed.

Lemma Avis_table_step (w : World) (event : Event) (m : gmap jsstring Entry) :
  table (Avis.handler w event m) = m
  \/ table (Avis.handler w event m)
     = (fixedWindow 300000 2 (now w) (client_ip event) m).2.
Proof.
  rewrite Avis_table. destruct (_ && _); [right; reflexivity|left; reflexivity].
Qed.

Lemma Connexion_table_bounded (w : World) (event : Event) (m : gmap jsstring Entry) :
  counts_bounded 5 m -> counts_bounded 5 (table (Connexion.handler w event m)).
Proof.
  intros Hm. destruct (Connexion_table_step w event m) as [-> | ->]; [exact Hm|].
  apply fixedWindow_counts_bounded; [lia|exact Hm].
Qed.

Lemma Avis_table_bounded (w : World) (event : Event) (m : gmap jsstring Entry) :
  counts_bounded 2 m -> counts_bounded 2 (table (Avis.handler w event m)).
Proof.
  intros Hm. destruct (Avis_table_step w event m) as [-> | ->]; [exact Hm|].
  apply fixedWindow_counts_bounded; [lia|exact Hm].
Qed.

(** X4.  What an invocation may change in the table (source lines 19-34,
    50, 130-144 and 159).  Whatever the request, a handler keeps every
    count between 1 and its maximum when the table had that property, never
    removes an entry, and leaves the entries of all other client keys as
    they were. *)
Theorem table_invariants_of_an_invocation (w : World) (event : Event)
    (m : gmap jsstring Entry) :
  (counts_bounded 5 m -> counts_bounded 5 (table (Connexion.handler w event m)))
  /\ (counts_bounded 2 m -> counts_bounded 2 (table (Avis.handler w event m)))
  /\ dom m ⊆ dom (table (Connexion.handler w event m))
  /\ dom m ⊆ dom (table (Avis.handler w event m))
  /\ (forall ip, ip <> client_ip event ->
        table (Connexion.handler w event m) !! ip = m !! ip
        /\ table (Avis.handler w event m) !! ip = m !! ip).
Proof.
  split; [apply Connexion_table_bounded|]. split; [apply Avis_table_bounded|].
  split; [|split].
  - destruct (Connexion_table_step w event m) as [-> | ->];
      [reflexivity|apply fixedWindow_dom; lia].
  - destruct (Avis_table_step w event m) as [-> | ->];
      [reflexivity|apply fixedWindow_dom; lia].
  - intros ip Hne. split.
    + destruct (Connexion_table_step w event m) as [-> | ->]; [reflexivity|].
      apply fixedWindow_other. congruence.
    + destruct (Avis_table_step w event m) as [-> | ->]; [reflexivity|].
      apply fixedWindow_other. congruence.
Qed.

(** X5.  Starting from the empty table of a fresh process, whatever
    invocations a handler serves, with whatever clocks and requests, no
    entry ever counts more than the maximum of that handler (5 and 2) nor
    less than 1. *)
Theorem counts_never_exceed_the_maximum (invocations : list (World * Event)) :
  counts_bounded 5 (serve Connexion.handler invocations ∅)
  /\ counts_bounded 2 (serve Avis.handler invocations ∅).
Proof.
  assert (H0 : forall MAX, counts_bounded MAX (∅ : gmap jsstring Entry)).
  { intros MAX ip e He. rewrite lookup_empty in He. discriminate. }
  split.
  - generalize (H0 5). generalize (∅ : gmap jsstring Entry).
    induction invocations as [|[w event] invocations IH]; intros m Hm; [exact Hm|].
    simpl. apply IH, Connexion_table_bounded, Hm.
  - generalize (H0 2). generalize (∅ : gmap jsstring Entry).
    induction invocations as [|[w event] invocations IH]; intros m Hm; [exact Hm|].
    simpl. apply IH, Avis_table_bounded, Hm.
Qed.

(** ** Denials and the end of the window *)

Lemma checks_app (check : Z -> jsstring -> gmap jsstring Entry -> bool * gmap jsstring Entry)
    (ip : jsstring) (times1 times2 : list Z) (m : gmap jsstring Entry) :
  checks check ip (times1 ++ times2) m =
    ((checks check ip times1 m).1
       ++ (checks check ip times2 (checks check ip times1 m).2).1,
     (checks check ip times2 (checks check ip times1 m).2).2).
Proof.
  revert m. induction times1 as [|t times1 IH]; intros m; simpl.
  - destruct (checks check ip times2 m); reflexivity.
  - destruct (check t ip m) as [limited m1]. rewrite IH.
    destruct (checks check ip times1 m1) as [v1 m2]. reflexivity.
Qed.

Lemma full_window_then_reset (WINDOW MAX : Z) (ip : jsstring) (times : list Z)
    (t' : Z) (m : gmap jsstring Entry) (e : Entry) :
  m !! ip = Some e -> MAX <= count e ->
  Forall (fun t => t - start e <= WINDOW) times ->
  t' - start e > WINDOW ->
  checks (fixedWindow WINDOW MAX) ip (times ++ [t']) m =
    (replicate (length times) true ++ [false],
     <[ip := {| count := 1; start := t' |}]> m).
Proof.
  intros He Hfull Hin Hout.
  rewrite checks_app, (checks_while_full WINDOW MAX ip times m e He Hfull Hin).
  simpl. rewrite (check_expired WINDOW MAX t' ip m e He Hout). reflexivity.
Qed.

(** X6.  Denied requests do not prolong the lock-out (source lines 23-29
    and 134-139).  When the entry of a client is full, every further
    request of that client up to windowStart + window is denied and leaves
    the table as it is, however many there are; the first request strictly
    after the window is admitted and opens a new window with count 1. *)
Theorem denials_do_not_extend_the_window (ip : jsstring) (times : list Z)
    (t' : Z) (m : gmap jsstring Entry) (e : Entry) :
  m !! ip = Some e ->
  (5 <= count e ->
   Forall (fun t => t - start e <= 60000) times -> t' - start e > 60000 ->
   checks Connexion.isRateLimited ip (times ++ [t']) m =
     (replicate (length times) true ++ [false],
      <[ip := {| count := 1; start := t' |}]> m))
  /\ (2 <= count e ->
      Forall (fun t => t - start e <= 300000) times -> t' - start e > 300000 ->
      checks Avis.isRateLimited ip (times ++ [t']) m =
        (replicate (length times) true ++ [false],
         <[ip := {| count := 1; start := t' |}]> m)).
Proof.
  intros He. split; intros Hfull Hin Hout.
  - rewrite Connexion_isRateLimited_fixedWindow.
    eapply full_window_then_reset; eauto.
  - rewrite Avis_isRateLimited_fixedWindow.
    eapply full_window_then_reset; eauto.
Qed.

Lemma denials_do_not_extend_the_window_witness :
  checks Connexion.isRateLimited (js "203.0.113.7")
    ([10; 20; 59999; 60000] ++ [60001]) (table_with 5 0) =
    (replicate (length [10; 20; 59999; 60000]) true ++ [false],
     <[js "203.0.113.7" := {| count := 1; start := 60001 |}]> (table_with 5 0)).
Proof.
  refine (proj1 (denials_do_not_extend_the_window (js "203.0.113.7")
                   [10; 20; 59999; 60000] 60001 (table_with 5 0)
                   {| count := 5; start := 0 |} _) _ _ _).
  - vm_compute. reflexivity.
  - simpl. lia.
  - repeat constructor; simpl; lia.
  - simpl. lia.
Defined.

(** ** How an invocation settles *)

(** Closes a case in which the handler stopped without an outbound call. *)
Ltac settled_early :=
  left; split; [reflexivity|];
  first [left; reflexivity
        |right; eexists; split; [reflexivity|];
         split; [cbn; tauto|reflexivity]].

Lemma Connexion_settled (w : World) (event : Event) (m : gmap jsstring Entry) :
  settled w (Connexion.handler w event m).
Proof.
  unfold Connexion.handler. cbv zeta.
  destruct (str_eqb _ Connexion.ALLOWED_ORIGIN); cbn [negb]; [|settled_early].
  destruct (str_eqb (httpMethod event) _); cbn [negb]; [|settled_early].
  destruct (Connexion.isRateLimited _ _ _) as [[|] m']; [settled_early|].
  destruct (body_json event) as [payload|]; [|settled_early].
  destruct (Get payload _) as [embeds|]; [|settled_early].
  destruct (negb (ToBoolean embeds) || negb (isArray embeds)); [settled_early|].
  destruct (Connexion.safePayload _ _) as [safe|]; [|settled_early].
  destruct (env_webhook w) as [[|c url]|] eqn:Hu; cbn [url_missing];
    try settled_early.
  right. exists (c :: url), safe. split; [exact Hu|]. split; [discriminate|].
  split; [reflexivity|]. cbn [completion default]. unfold post_to, json_headers.
  destruct (fetch w _) as [[|]|]; reflexivity.
Qed.

Lemma Avis_settled (w : World) (event : Event) (m : gmap jsstring Entry) :
  settled w (Avis.handler w event m).
Proof.
  unfold Avis.handler. cbv zeta.
  destruct (str_eqb _ Avis.ALLOWED_ORIGIN); cbn [negb]; [|settled_early].
  destruct (str_eqb (httpMethod event) _); cbn [negb]; [|settled_early].
  destruct (Avis.isRateLimited _ _ _) as [[|] m']; [settled_early|].
  destruct (body_json event) as [payload|]; [|settled_early].
  destruct (nullish payload) eqn:Hnn.
  { destruct payload; try discriminate; settled_early. }
  rewrite !(Get_not_nullish _ _ Hnn).
  destruct (_ || _ || _ || _); [settled_early|].
  destruct (parseInt _) as [safeRating|]; [|settled_early].
  destruct (_ || _ || _); [settled_early|].
  destruct (ToString (GetOpt payload (js "comment"))) as [c|]; [|settled_early].
  destruct (_ <? _)%nat; [settled_early|].
  destruct (ToString (GetOpt payload (js "userId"))) as [u|]; [|settled_early].
  destruct (negb _); [settled_early|].
  destruct (env_webhook w) as [[|c0 url]|] eqn:Hu; cbn [url_missing];
    try settled_early.
  destruct (Avis.safePayload _ _ _ _ _ _) as [safe|]; [|settled_early].
  right. exists (c0 :: url), safe. split; [exact Hu|]. split; [discriminate|].
  split; [reflexivity|]. cbn [completion default]. unfold post_to, json_headers.
  destruct (fetch w _) as [[|]|]; reflexivity.
Qed.

Lemma settled_disciplined (w : World) (o : Outcome) :
  settled w o -> disciplined w o.
Proof.
  intros [(Hf & Hc)|(url & safe & Hu & Hne & Hf & Hc)].
  - assert (Hr : forall r, completion o = Returned r ->
              In (statusCode r) [400; 403; 405; 429; 500]
              /\ header "Access-Control-Allow-Origin" r = None).
    { intros r Hr. destruct Hc as [Hc|(r' & Hc & Hs & Hh)]; [congruence|].
      assert (r' = r) as -> by congruence. auto. }
    split.
    + rewrite Hf. simpl. lia.
    + intros call Hcall. rewrite Hf in Hcall. inversion Hcall.
    + intros r Hret. destruct (Hr r Hret) as [Hs _]. cbn in *. tauto.
    + intros r Hret. destruct (Hr r Hret) as [Hs _]. split.
      * intros H200. rewrite H200 in Hs. cbn in Hs.
        repeat (destruct Hs as [Hs|Hs]; [discriminate|]). contradiction.
      * intros (call & Hcall & _). congruence.
    + intros r Hret. destruct (Hr r Hret) as [Hs _]. split.
      * intros H502. rewrite H502 in Hs. cbn in Hs.
        repeat (destruct Hs as [Hs|Hs]; [discriminate|]). contradiction.
      * intros (call & Hcall & _). congruence.
    + intros r Hret. destruct (Hr r Hret) as [Hs Hh]. rewrite Hh. split.
      * intros H200. rewrite H200 in Hs. cbn in Hs.
        repeat (destruct Hs as [Hs|Hs]; [discriminate|]). contradiction.
      * discriminate.
    + intros _. exact Hf.
  - split.
    + rewrite Hf. simpl. lia.
    + intros call Hcall. rewrite Hf in Hcall.
      apply list_elem_of_singleton in Hcall as ->. auto.
    + intros r Hret. rewrite Hc in Hret. injection Hret as <-.
      destruct (fetch w _) as [[|]|]; cbn; tauto.
    + intros r Hret. rewrite Hc in Hret. injection Hret as <-. split.
      * intros H200. exists (post_to url safe). split; [exact Hf|].
        destruct (fetch w _) as [[|]|]; [reflexivity|discriminate|discriminate].
      * intros (call & Hcall & Hok). rewrite Hf in Hcall. injection Hcall as <-.
        rewrite Hok. reflexivity.
    + intros r Hret. rewrite Hc in Hret. injection Hret as <-. split.
      * intros H502. exists (post_to url safe). split; [exact Hf|].
        destruct (fetch w _) as [[|]|]; [discriminate|discriminate|discriminate].
      * intros (call & Hcall & Hok). rewrite Hf in Hcall. injection Hcall as <-.
        destruct (fetch w _) as [[|]|]; [congruence|reflexivity|reflexivity].
    + intros r Hret. rewrite Hc in Hret. injection Hret as <-.
      destruct (fetch w _) as [[|]|]; split; try reflexivity; discriminate.
    + intros Ht. congruence.
Qed.

(** X7.  How an invocation settles, for both handlers (source lines 36-116
    and 146-241).  A handler makes at most one outbound call, always a POST
    with a JSON content type to the URL of its environment variable, never
    to anything the client sent.  It answers only 200, 400, 403, 405, 429,
    500 or 502: 200 exactly when the outbound call was made and reported
    success, 502 exactly when it was made and failed or raised.  The
    Access-Control-Allow-Origin header accompanies a 200 and nothing else.
    An invocation that raises has made no outbound call. *)
Theorem invocations_are_disciplined (w : World) (event : Event)
    (m : gmap jsstring Entry) :
  disciplined w (Connexion.handler w event m)
  /\ disciplined w (Avis.handler w event m).
Proof.
  split; apply settled_disciplined;
    [apply Connexion_settled|apply Avis_settled].
Qed.

(** ** The shape of what the connection handler forwards *)





(** ** Bodies that cannot make a handler raise *)

Lemma ToString_scalar (v : value) : scalar v = true -> is_Some (ToString v).
Proof. destruct v as [| |[|]| | | |]; simpl; intros H; eauto; discriminate. Qed.

Lemma or_else_scalar (v : value) :
  scalar v = true -> scalar (or_else v (VString [])) = true.
Proof. unfold or_else. destruct (ToBoolean v); auto. Qed.

Lemma safeField_typed (f : value) :
  typed_field f = true -> is_Some (Connexion.safeField f).
Proof.
  unfold typed_field. rewrite !andb_true_iff, negb_true_iff.
  intros [[Hnn Hn] Hv]. unfold Connexion.safeField.
  rewrite !(Get_not_nullish _ _ Hnn). cbn [mbind option_bind].
  destruct (ToString_scalar _ (or_else_scalar _ Hn)) as [n ->].
  destruct (ToString_scalar _ (or_else_scalar _ Hv)) as [v ->].
  cbn [mbind option_bind]. eauto.
Qed.

Lemma safeFields_typed (fs : list value) :
  forallb typed_field fs = true ->
  is_Some (mapM Connexion.safeField (slice0 25 fs)).
Proof.
  intros H. apply mapM_is_Some, Forall_forall. intros f Hf.
  apply safeField_typed. rewrite forallb_forall in H. apply H.
  apply list_elem_of_In. unfold slice0 in Hf.
  eapply subseteq_take, Hf.
Qed.

Lemma safeEmbed_typed (stamp : jsstring) (e : value) :
  typed_embed e = true -> is_Some (Connexion.safeEmbed stamp e).
Proof.
  unfold typed_embed. rewrite !andb_true_iff, negb_true_iff.
  intros [[[[Hnn Ht] Hd] Hu] Hf]. unfold Connexion.safeEmbed.
  rewrite !(Get_not_nullish _ _ Hnn). cbn [mbind option_bind].
  destruct (ToString_scalar _ (or_else_scalar _ Ht)) as [t ->].
  destruct (ToString_scalar _ (or_else_scalar _ Hd)) as [d ->].
  cbn [mbind option_bind].
  assert (Hthumb : is_Some
            (if ToBoolean (GetOpt (GetOpt e (js "thumbnail")) (js "url"))
             then url ← Get (GetOpt e (js "thumbnail")) (js "url");
                  url ← ToString url;
                  Some (VObject [(js "url", VString (slice0 512 url))])
             else Some VUndefined)).
  { destruct (ToBoolean _) eqn:Hb; [|eauto].
    rewrite (Get_not_nullish _ _ (truthy_member_not_nullish _ _ Hb)).
    cbn [mbind option_bind]. destruct (ToString_scalar _ Hu) as [u ->].
    cbn [mbind option_bind]. eauto. }
  destruct Hthumb as [th ->]. cbn [mbind option_bind].
  assert (Hfields : is_Some
            match GetOpt e (js "fields") with
            | VArray fs => VArray <$> mapM Connexion.safeField (slice0 25 fs)
            | _ => Some (VArray [])
            end).
  { destruct (GetOpt e (js "fields")); eauto.
    destruct (safeFields_typed _ Hf) as [fs' ->]. simpl. eauto. }
  destruct Hfields as [fields ->]. cbn [mbind option_bind]. eauto.
Qed.

Lemma safePayload_typed (w : World) (embeds : list value) :
  forallb typed_embed embeds = true ->
  is_Some (Connexion.safePayload w embeds).
Proof.
  intros H. unfold Connexion.safePayload.
  assert (Hm : is_Some (mapM id (imap (fun i embed =>
                 Connexion.safeEmbed (toISOString w i) embed) embeds))).
  { apply mapM_is_Some, Forall_forall. intros x Hx.
    apply elem_of_lookup_imap in Hx as (i & e & -> & Hi).
    apply safeEmbed_typed. rewrite forallb_forall in H. apply H.
    apply list_elem_of_In. eapply list_elem_of_lookup_2, Hi. }
  destruct Hm as [safe ->]. cbn [mbind option_bind]. eauto.
Qed.

(** X9.  Bodies that cannot make a handler raise (source lines 59-85 and
    167-217).  The connection handler completes with a response whenever
    the body is not JSON, or is a payload other than [null] whose embeds,
    if it has an array of them, are not [null] and have a scalar (or no)
    title, description and thumbnail url, and fields that are not [null]
    with scalar (or no) name and value.  The review handler completes with
    a response whenever the body is not JSON, or is a payload other than
    [null] whose username, userId, rating, comment and avatarUrl are scalar
    or missing. *)
Theorem well_typed_bodies_never_raise (w : World) (event : Event)
    (m : gmap jsstring Entry) :
  ((forall payload, body_json event = Some payload -> typed_notice payload = true) ->
   completion (Connexion.handler w event m) <> Thrown)
  /\ ((forall payload, body_json event = Some payload -> typed_review payload = true) ->
      completion (Avis.handler w event m) <> Thrown).
Proof.
  split; intros Htyped.
  - unfold Connexion.handler. cbv zeta.
    destruct (str_eqb _ Connexion.ALLOWED_ORIGIN); cbn [negb]; [|discriminate].
    destruct (str_eqb (httpMethod event) _); cbn [negb]; [|discriminate].
    destruct (Connexion.isRateLimited _ _ _) as [[|] m']; [discriminate|].
    destruct (body_json event) as [payload|]; [|discriminate].
    specialize (Htyped payload eq_refl). unfold typed_notice in Htyped.
    apply andb_true_iff in Htyped as [Hnn Hembeds].
    apply negb_true_iff in Hnn. rewrite (Get_not_nullish _ _ Hnn).
    destruct (GetOpt payload (js "embeds")) as [| | | | |embeds|];
      cbn [ToBoolean isArray negb orb]; try discriminate;
      try (destruct (negb _); discriminate).
    destruct (safePayload_typed w embeds Hembeds) as [safe ->].
    destruct (url_missing _); discriminate.
  - unfold Avis.handler. cbv zeta.
    destruct (str_eqb _ Avis.ALLOWED_ORIGIN); cbn [negb]; [|discriminate].
    destruct (str_eqb (httpMethod event) _); cbn [negb]; [|discriminate].
    destruct (Avis.isRateLimited _ _ _) as [[|] m']; [discriminate|].
    destruct (body_json event) as [payload|]; [|discriminate].
    specialize (Htyped payload eq_refl). unfold typed_review in Htyped.
    rewrite !andb_true_iff, negb_true_iff in Htyped.
    destruct Htyped as [[[[[Hnn Hname] Hid] Hrating] Hcomment] Hav].
    rewrite !(Get_not_nullish _ _ Hnn).
    destruct (_ || _ || _ || _); [discriminate|].
    unfold parseInt. destruct (ToString_scalar _ Hrating) as [r ->].
    cbn [fmap option_fmap option_map].
    destruct (_ || _ || _) eqn:Hrange; [discriminate|].
    destruct (ToString_scalar _ Hcomment) as [c ->].
    destruct (_ <? _)%nat; [discriminate|].
    destruct (ToString_scalar _ Hid) as [u Hu]. rewrite Hu.
    destruct (negb _); [discriminate|].
    destruct (url_missing _); [discriminate|].
    unfold Avis.safePayload. rewrite Hu.
    destruct (ToString_scalar _ Hname) as [n ->].
    assert (Hthumb : is_Some
              (if ToBoolean (GetOpt payload (js "avatarUrl"))
               then url ← ToString (GetOpt payload (js "avatarUrl"));
                    Some (VObject [(js "url", VString (slice0 512 url))])
               else Some VUndefined)).
    { destruct (ToBoolean _); [|eauto].
      destruct (ToString_scalar _ Hav) as [a ->]. simpl. eauto. }
    destruct Hthumb as [th ->]. cbn [mbind option_bind]. discriminate.
Qed.

Lemma well_typed_bodies_never_raise_witness :
  completion (Connexion.handler (sample_world None Rejected)
                (post (Some noisy_notice)) ∅) <> Thrown
  /\ completion (Avis.handler (sample_world None Rejected)
                   (post (Some (review (VBool true) (VNumber 12) VNull))) ∅) <> Thrown.
Proof.
  split.
  - apply (proj1 (well_typed_bodies_never_raise (sample_world None Rejected)
                    (post (Some noisy_notice)) ∅)).
    intros payload [= <-]. vm_compute. reflexivity.
  - apply (proj2 (well_typed_bodies_never_raise (sample_world None Rejected)
                    (post (Some (review (VBool true) (VNumber 12) VNull))) ∅)).
    intros payload [= <-]. vm_compute. reflexivity.
Defined.

(** ** Numbers as ratings *)












(** ** Comments that are too short *)

Lemma trimStart_whitespace (s : jsstring) :
  Forall (fun c => isWhiteSpace c = true) s -> trimStart s = [].
Proof. induction 1 as [|c s Hc _ IH]; simpl; [reflexivity|]. rewrite Hc. exact IH. Qed.

Lemma blank_Forall (s : jsstring) :
  forallb isWhiteSpace s = true -> Forall (fun c => isWhiteSpace c = true) s.
Proof.
  rewrite forallb_forall, Forall_forall. intros H c Hc.
  apply H, list_elem_of_In, Hc.
Qed.

Lemma length_trimStart (s : jsstring) : (length (trimStart s) <= length s)%nat.
Proof.
  induction s as [|c s IH]; simpl; [lia|]. destruct (isWhiteSpace c); simpl; lia.
Qed.

Lemma length_trim (s : jsstring) : (length (trim s) <= length s)%nat.
Proof.
  unfold trim, trimEnd. rewrite length_rev.
  etransitivity; [apply length_trimStart|]. rewrite length_rev.
  apply length_trimStart.
Qed.

(** X11.  Comments that are always refused (source lines 188-191).  For an
    admitted review whose required fields are truthy and whose rating
    passed, the answer is 400 Comment too short, without outbound call,
    whenever the comment converted to a string has fewer than 5 code units,
    and whenever its first 500 code units are all white space, whatever
    text follows them. *)
Theorem short_or_blank_comment_refused (w : World) (event : Event)
    (m m' : gmap jsstring Entry) (payload : value) (r : number) (c : jsstring) :
  Avis_admitted w event m m' ->
  body_json event = Some payload ->
  required_fields payload = true ->
  parseInt (GetOpt payload (js "rating")) = Some r ->
  rating_in_range r = true ->
  ToString (GetOpt payload (js "comment")) = Some c ->
  (length c < 5)%nat \/ Forall (fun u => isWhiteSpace u = true) (slice0 500 c) ->
  Avis.handler w event m =
    {| table := m'; fetched := [];
       completion := Returned (plain 400 "Comment too short") |}.
Proof.
  intros Ha Hb Hr Hp Hrange Hc Hshort. eapply Avis_comment_too_short; eauto.
  destruct Hshort as [Hlen|Hblank].
  - pose proof (length_trim (slice0 500 c)) as H1.
    unfold slice0 in *. rewrite length_take in H1. lia.
  - unfold trim. rewrite (trimStart_whitespace _ Hblank). simpl. lia.
Qed.

Lemma short_or_blank_comment_refused_witness :
  Avis.handler (sample_world (Some sample_url) (Resolved true))
    (post (Some (review (VNumber 5) good_userId
                   (VString (replicate 500 32%N ++ js "Un vrai commentaire"))))) ∅ =
    {| table := table_with 1 1700000000000; fetched := [];
       completion := Returned (plain 400 "Comment too short") |}.
Proof.
  apply (short_or_blank_comment_refused
           (sample_world (Some sample_url) (Resolved true))
           (post (Some (review (VNumber 5) good_userId
                          (VString (replicate 500 32%N ++ js "Un vrai commentaire")))))
           ∅ (table_with 1 1700000000000)
           (review (VNumber 5) good_userId
              (VString (replicate 500 32%N ++ js "Un vrai commentaire")))
           (Int 5) (replicate 500 32%N ++ js "Un vrai commentaire")).
  - split; [|split]; vm_compute; reflexivity.
  - reflexivity.
  - vm_compute. reflexivity.
  - vm_compute. reflexivity.
  - vm_compute. reflexivity.
  - vm_compute. reflexivity.
  - right. apply blank_Forall. vm_compute. reflexivity.
Defined.

(** ** The user id that is forwarded *)



(** ** Content that fits is not altered *)




